(** * oniongate/validators.py: helper functions for validating API input

    A shallow embedding of the admission validators of oniongate
    ([is_onion_address], [is_valid_label], [is_valid_hostname],
    [domain_name], [ip_address], [allowed_dns_record_type]) together with
    the parts of the Python runtime they call: [str] methods, the [re]
    matcher on the three patterns the module uses, and [ipaddress].

    The input of a validator is a text of the alphabet U+0000..U+00FF, a
    list of 8-bit character codes.  On such texts the embedding follows
    Python 3: whitespace, lowercase forms, [repr] and the three patterns
    are those of [str] and [re] on these characters.  Capital forms can
    leave the alphabet, so upper-cased text is a list of code points. *)

From Stdlib Require Import String Ascii List ZArith NArith Bool Arith Lia.
From Stdlib Require Import DecimalString HexadecimalString.
Import ListNotations.

Set Implicit Arguments.

Open Scope string_scope.
Open Scope nat_scope.
Open Scope list_scope.

(** ** Python [str] *)

Definition str := list ascii.

(** String literals are written as Rocq strings and read as [str]. *)
Coercion list_ascii_of_string : string >-> list.

(** A [str] given by its code points, not bounded by the alphabet. *)
Definition text := list N.

Module pystr.

Definition ord (c : ascii) : N := N_of_ascii c.
Definition chr (n : N) : ascii := ascii_of_N n.

Definition newline : ascii := "010"%char.

(** [lo <= c <= hi] on character codes. *)
Definition between (lo hi c : ascii) : bool :=
  (ord lo <=? ord c)%N && (ord c <=? ord hi)%N.

(** The letters A-Z, the letters a-z and the digits 0-9. *)
Definition isupper (c : ascii) : bool := between "A" "Z" c.
Definition islower (c : ascii) : bool := between "a" "z" c.
Definition isdigit (c : ascii) : bool := between "0" "9" c.

(** [s.isascii()] *)
Definition isascii (s : str) : bool := forallb (fun c => (ord c <? 128)%N) s.

(** [str.isspace] on one character: tab, line feed, vertical tab, form
    feed, carriage return, the four separators 0x1c..0x1f, space, next
    line (0x85) and no-break space (0xa0). *)
Definition isspace (c : ascii) : bool :=
  between "009" "013" c || between "028" "031" c || Ascii.eqb c " "
  || Ascii.eqb c "133" || Ascii.eqb c "160".

(** [c.lower()]: the letters A-Z and the capital letters of 0xc0..0xde
    (0xd7, the multiplication sign, is no letter) have their lowercase
    form 32 codes further on. *)
Definition lower_char (c : ascii) : ascii :=
  if isupper c || (between "192" "222" c && negb (Ascii.eqb c "215"))
  then chr (ord c + 32) else c.

(** [c.upper()]: the letters a-z and the small letters of 0xe0..0xfe
    (0xf7, the division sign, is no letter) have their capital 32 codes
    before them; the capital of sharp s (0xdf) is "SS"; the capitals of
    the micro sign (0xb5) and of y with diaeresis (0xff) are U+039C and
    U+0178, beyond the alphabet. *)
Definition upper_char (c : ascii) : text :=
  if islower c || (between "224" "254" c && negb (Ascii.eqb c "247"))
  then [ord c - 32]%N
  else if Ascii.eqb c "181" then [924]%N
  else if Ascii.eqb c "223" then [83; 83]%N
  else if Ascii.eqb c "255" then [376]%N
  else [ord c].

(** [s.lower()], [s.upper()] *)
Definition lower (s : str) : str := map lower_char s.
Definition upper (s : str) : text := flat_map upper_char s.

(** A text of the alphabet, given by its code points. *)
Definition wide (s : str) : text := map ord s.

(** [not s] *)
Definition is_empty (s : str) : bool :=
  match s with [] => true | _ :: _ => false end.

(** [a == b] *)
Fixpoint eqb (a b : str) : bool :=
  match a, b with
  | [], [] => true
  | x :: a', y :: b' => Ascii.eqb x y && eqb a' b'
  | _, _ => false
  end.

(** [s in collection] for a collection of strings. *)
Definition mem (s : str) (l : list str) : bool := existsb (eqb s) l.

(** [a == b] and [s in collection] on code points. *)
Fixpoint text_eqb (a b : text) : bool :=
  match a, b with
  | [], [] => true
  | x :: a', y :: b' => N.eqb x y && text_eqb a' b'
  | _, _ => false
  end.

Definition text_mem (s : text) (l : list text) : bool := existsb (text_eqb s) l.

(** [c in s] for a one-character needle. *)
Definition contains (c : ascii) (s : str) : bool := existsb (Ascii.eqb c) s.

(** [s[-1]]; [None] stands for the IndexError on the empty string. *)
Fixpoint last_char (s : str) : option ascii :=
  match s with
  | [] => None
  | [c] => Some c
  | _ :: s' => last_char s'
  end.

(** [s[:-1]] *)
Definition drop_last (s : str) : str := removelast s.

(** [s.startswith(p)] *)
Fixpoint startswith (s p : str) : bool :=
  match p, s with
  | [], _ => true
  | x :: p', y :: s' => Ascii.eqb x y && startswith s' p'
  | _ :: _, [] => false
  end.

(** [s.split(sep)] for a one-character separator: never empty. *)
Fixpoint split (sep : ascii) (s : str) : list str :=
  match s with
  | [] => [[]]
  | c :: s' =>
      if Ascii.eqb c sep then [] :: split sep s'
      else match split sep s' with
           | seg :: rest => (c :: seg) :: rest
           | [] => [[c]]
           end
  end.

(** [sep.join(parts)] *)
Fixpoint join {A : Type} (sep : list A) (parts : list (list A)) : list A :=
  match parts with
  | [] => []
  | [p] => p
  | p :: rest => p ++ sep ++ join sep rest
  end.

(** [s.lstrip()], [s.rstrip()], [s.strip()] with no argument. *)
Fixpoint lstrip (s : str) : str :=
  match s with
  | c :: s' => if isspace c then lstrip s' else s
  | [] => []
  end.
Definition rstrip (s : str) : str := rev (lstrip (rev s)).
Definition strip (s : str) : str := rstrip (lstrip s).

(** ["{}".format(n)] for an [int]. *)
Definition format_int (n : Z) : str :=
  list_ascii_of_string (DecimalString.NilZero.string_of_int (Z.to_int n)).

(** [len(s)] as a Python [int]. *)
Definition len (s : str) : Z := Z.of_nat (length s).

Definition hex_digit (n : N) : ascii :=
  if (n <? 10)%N then chr (ord "0" + n) else chr (ord "a" + (n - 10)).

(** [repr(s)]: quoted with ['] unless the text holds a ['] and no
    double quote; backslash, the quote in use, tab, line feed and
    carriage return are escaped, the other characters that are not
    printable (the controls 0x00..0x1f and 0x7f..0x9f, no-break space
    and soft hyphen) are written in hexadecimal. *)
Definition quote1 : ascii := "'"%char.
Definition quote2 : ascii := chr 34.
Definition backslash : ascii := chr 92.

Definition repr_char (q c : ascii) : str :=
  if Ascii.eqb c backslash || Ascii.eqb c q then [backslash; c]
  else if Ascii.eqb c "009" then backslash :: "t"
  else if Ascii.eqb c "010" then backslash :: "n"
  else if Ascii.eqb c "013" then backslash :: "r"
  else if (ord c <? 32)%N || between "127" "160" c || Ascii.eqb c "173"
       then [backslash; "x"%char; hex_digit (ord c / 16); hex_digit (ord c mod 16)]
  else [c].

Definition repr (s : str) : str :=
  let q := if contains quote1 s && negb (contains quote2 s)
           then quote2 else quote1 in
  q :: flat_map (repr_char q) s ++ [q].

End pystr.

(** ** Python exceptions and results *)

(** The validators raise exceptions of one type only, [ValueError].  Its
    message is of type [T]: [str], or [text] where the message quotes
    upper-cased text. *)
Inductive exn (T : Type) : Type :=
| ValueError (msg : T).
Arguments ValueError {T} & msg.

Inductive result (T A : Type) : Type :=
| Return (a : A)
| Raise (e : exn T).
Arguments Return {T A} & a.
Arguments Raise {T A} & e.

(** ** The [re] module, on the constructs the validators use

    Subjects are texts of the alphabet: there the decimal digits of [\d]
    are 0-9 and the letters that a range of ASCII letters matches under
    re.IGNORECASE are the ASCII letters. *)

Module re.
Import pystr.

Inductive set_item : Type :=
| Range (lo hi : ascii)     (* lo-hi *)
| Esc (c : ascii)           (* \c for a punctuation character c *)
| Digit.                    (* \d *)

Inductive regex : Type :=
| Lit (c : ascii)                              (* a literal character *)
| Any                                          (* .  *)
| OneOf (items : list set_item)                (* [...] *)
| Seq (r1 r2 : regex)                          (* r1 r2 *)
| Repeat (lo : nat) (hi : option nat) (r : regex)  (* r{lo,hi}; r+ is r{1,} *)
| NotAhead (r : regex)                         (* (?!r) *)
| NotBehind (w : nat) (r : regex)              (* (?<!r), r of width w *)
| Bos                                          (* ^ *)
| Eos.                                         (* $ *)

(** A position in the subject: the text behind it (nearest character
    first) and the text ahead of it. *)
Record cursor : Type := { behind : str; ahead : str }.

Definition start (s : str) : cursor := {| behind := []; ahead := s |}.

(** Step back over [w] characters, if there are that many. *)
Fixpoint rewind (w : nat) (p : cursor) : option cursor :=
  match w with
  | 0 => Some p
  | S w' =>
      match behind p with
      | [] => None
      | c :: b => rewind w' {| behind := b; ahead := c :: ahead p |}
      end
  end.

Definition item_mem (it : set_item) (c : ascii) : bool :=
  match it with
  | Range lo hi => between lo hi c
  | Esc d => Ascii.eqb d c
  | Digit => isdigit c
  end.

Definition in_set (items : list set_item) (c : ascii) : bool :=
  existsb (fun it => item_mem it c) items.

(** The capital that the matcher compares under re.IGNORECASE, always
    one character: that of [str.upper] where it is one character of the
    alphabet, the character itself otherwise (sharp s has no capital of
    one character; those of the micro sign and of y with diaeresis lie
    beyond the alphabet, and so in no set of characters of it). *)
Definition toupper (c : ascii) : ascii :=
  if islower c || (between "224" "254" c && negb (Ascii.eqb c "247"))
  then chr (ord c - 32) else c.

(** The loop of a repetition [r{lo,hi}]: [n] rounds are done, one more
    round of [body] is tried first (greedy), then leaving the loop.  A
    round must consume text, so [fuel] above the length of the text
    ahead is never used up. *)
Fixpoint repeat_loop (body : cursor -> (cursor -> bool) -> bool)
         (lo : nat) (hi : option nat) (k : cursor -> bool)
         (fuel n : nat) (p : cursor) {struct fuel} : bool :=
  match fuel with
  | 0 => false
  | S fuel' =>
      (match hi with Some h => n <? h | None => true end
       && body p (fun p' =>
            (length (ahead p') <? length (ahead p))
            && repeat_loop body lo hi k fuel' (S n) p'))
      || ((lo <=? n) && k p)
  end.

Section Exec.
(** re.IGNORECASE *)
Variable ignorecase : bool.

Definition lit_match (c d : ascii) : bool :=
  if ignorecase then Ascii.eqb (lower_char c) (lower_char d)
  else Ascii.eqb c d.

Definition set_match (items : list set_item) (c : ascii) : bool :=
  if ignorecase
  then in_set items (lower_char c) || in_set items (toupper c)
  else in_set items c.

(** One character of the subject is consumed if [ok] accepts it. *)
Definition one (ok : ascii -> bool) (p : cursor) (k : cursor -> bool) : bool :=
  match ahead p with
  | c :: rest => ok c && k {| behind := c :: behind p; ahead := rest |}
  | [] => false
  end.

(** Backtracking matcher: [exec r p k] tries every way of matching
    [r] at [p] and hands the position reached to [k]. *)
Fixpoint exec (r : regex) (p : cursor) (k : cursor -> bool) {struct r} : bool :=
  match r with
  | Lit c => one (lit_match c) p k
  | Any => one (fun c => negb (Ascii.eqb c newline)) p k
  | OneOf items => one (set_match items) p k
  | Seq r1 r2 => exec r1 p (fun p' => exec r2 p' k)
  | Repeat lo hi r1 =>
      repeat_loop (exec r1) lo hi k (S (length (ahead p))) 0 p
  | NotAhead r1 => negb (exec r1 p (fun _ => true)) && k p
  | NotBehind w r1 =>
      match rewind w p with
      | None => k p
      | Some p0 =>
          negb (exec r1 p0 (fun p' => length (ahead p') =? length (ahead p)))
          && k p
      end
  | Bos => match behind p with [] => k p | _ :: _ => false end
  | Eos =>
      match ahead p with
      | [] => k p
      | [c] => Ascii.eqb c newline && k p
      | _ :: _ :: _ => false
      end
  end.

(** [re.match(r, s) is not None] *)
Definition is_match (r : regex) (s : str) : bool :=
  exec r (start s) (fun _ => true).
End Exec.

(** The position [m] characters further on. *)
Definition advance (m : nat) (p : cursor) : cursor :=
  {| behind := rev (firstn m (ahead p)) ++ behind p;
     ahead := skipn m (ahead p) |}.

(** The effect of [pattern.replace("\c", "")] on a pattern in which
    [\c] occurs inside character sets only. *)
Definition item_is_esc (c : ascii) (it : set_item) : bool :=
  match it with Esc d => Ascii.eqb c d | _ => false end.

Fixpoint drop_escaped (c : ascii) (r : regex) : regex :=
  match r with
  | OneOf items => OneOf (filter (fun it => negb (item_is_esc c it)) items)
  | Seq r1 r2 => Seq (drop_escaped c r1) (drop_escaped c r2)
  | Repeat lo hi r1 => Repeat lo hi (drop_escaped c r1)
  | NotAhead r1 => NotAhead (drop_escaped c r1)
  | NotBehind w r1 => NotBehind w (drop_escaped c r1)
  | Lit _ | Any | Bos | Eos => r
  end.

(** A literal word, character by character. *)
Fixpoint word (w : str) (r : regex) : regex :=
  match w with
  | [] => r
  | c :: w' => Seq (Lit c) (word w' r)
  end.

End re.

Declare Scope re_scope.
Delimit Scope re_scope with re.
Notation "r1 ;; r2" := (re.Seq r1 r2) (at level 61, right associativity) : re_scope.

(** ** The [ipaddress] module of the standard library

    [ip_address], [IPv4Address], [IPv6Address] and [is_private] as in the
    CPython versions the application was written for (3.5, 3.6).  An
    address object holds the address as an integer. *)

Module ipaddress.
Import pystr.

Inductive address : Type :=
| IPv4Address (ip : N)
| IPv6Address (ip : N).

Definition is_hex_digit (c : ascii) : bool :=
  isdigit c || between "a" "f" c || between "A" "F" c.

Definition digit_val (c : ascii) : N :=
  if isdigit c then ord c - ord "0"
  else if between "a" "f" c then ord c - ord "a" + 10
  else ord c - ord "A" + 10.

(** [int(s, base)] on a text already checked to hold digits only. *)
Definition int_of (base : N) (s : str) : N :=
  fold_left (fun acc c => acc * base + digit_val c)%N s 0%N.

(** ['%x' % n] *)
Definition format_hex (n : N) : str :=
  list_ascii_of_string (HexadecimalString.NilZero.string_of_uint (N.to_hex_uint n)).

Fixpoint parse_all {A} (f : str -> option A) (l : list str) : option (list A) :=
  match l with
  | [] => Some []
  | x :: l' =>
      match f x, parse_all f l' with
      | Some a, Some r => Some (a :: r)
      | _, _ => None
      end
  end.

(** [acc] shifted left and or-ed with each digit of [bits] bits in turn. *)
Definition shift_in (bits : N) (acc : N) (l : list N) : N :=
  fold_left (fun a d => N.lor (N.shiftl a bits) d) l acc.

(** [IPv4Address._parse_octet]; [None] is the ValueError. *)
Definition parse_octet (octet_str : str) : option N :=
  match octet_str with
  | [] => None                                        (* empty octet *)
  | c0 :: _ =>
      if negb (forallb isdigit octet_str) then None   (* only decimal digits *)
      else if 3 <? length octet_str then None         (* at most 3 characters *)
      else
        let octet_int := int_of 10 octet_str in
        if (7 <? octet_int)%N && Ascii.eqb c0 "0" then None  (* ambiguous octal *)
        else if (255 <? octet_int)%N then None
        else Some octet_int
  end.

(** [IPv4Address._ip_int_from_string]; [None] is AddressValueError. *)
Definition ipv4_int_from_string (ip_str : str) : option N :=
  if is_empty ip_str then None
  else
    let octets := split "." ip_str in
    if negb (length octets =? 4) then None
    else option_map (shift_in 8 0%N) (parse_all parse_octet octets).

(** [IPv4Address(address)._ip] for a text. *)
Definition parse_ipv4 (address : str) : option N :=
  if contains "/" address then None else ipv4_int_from_string address.

(** [IPv6Address._parse_hextet] *)
Definition parse_hextet (hextet_str : str) : option N :=
  if negb (forallb is_hex_digit hextet_str) then None
  else if 4 <? length hextet_str then None
  else if is_empty hextet_str then None           (* int('', 16) raises *)
  else Some (int_of 16 hextet_str).

Definition HEXTET_COUNT : nat := 8.

(** The indices [i] of [range(1, len(parts) - 1)] with [parts[i]] empty. *)
Definition empty_middles (parts : list str) : list nat :=
  filter (fun i => is_empty (nth i parts [])) (seq 1 (length parts - 2)).

(** The two loops that build the integer: [parts_hi] leading hextets, a
    gap of [parts_skipped] zero hextets, [parts_lo] trailing hextets. *)
Definition assemble (parts : list str) (parts_hi parts_lo parts_skipped : nat)
  : option N :=
  match parse_all parse_hextet (firstn parts_hi parts),
        parse_all parse_hextet (skipn (length parts - parts_lo) parts) with
  | Some hi, Some lo =>
      let ip_int := shift_in 16 0%N hi in
      let ip_int := N.shiftl ip_int (16 * N.of_nat parts_skipped) in
      Some (shift_in 16 ip_int lo)
  | _, _ => None
  end.

(** [IPv6Address._ip_int_from_string]; [None] is AddressValueError. *)
Definition ipv6_int_from_string (ip_str : str) : option N :=
  if is_empty ip_str then None
  else
    let parts := split ":" ip_str in
    if length parts <? 3 then None
    else
      (* an IPv4-style suffix is converted to two hextets *)
      let suffixed :=
        if contains "." (last parts [])
        then match parse_ipv4 (last parts []) with
             | Some ipv4_int =>
                 Some (removelast parts ++
                       [format_hex (N.land (N.shiftr ipv4_int 16) 0xFFFF);
                        format_hex (N.land ipv4_int 0xFFFF)])
             | None => None
             end
        else Some parts in
      match suffixed with
      | None => None
      | Some parts =>
          if HEXTET_COUNT + 1 <? length parts then None
          else
            match empty_middles parts with
            | _ :: _ :: _ => None                 (* at most one '::' *)
            | [skip_index] =>
                let parts_hi := skip_index in
                let parts_lo := length parts - skip_index - 1 in
                let leading := is_empty (hd [] parts) in
                let trailing := is_empty (last parts []) in
                let parts_hi := if leading then parts_hi - 1 else parts_hi in
                let parts_lo := if trailing then parts_lo - 1 else parts_lo in
                if leading && negb (parts_hi =? 0) then None       (* ^: requires ^:: *)
                else if trailing && negb (parts_lo =? 0) then None (* :$ requires ::$ *)
                else if HEXTET_COUNT <=? parts_hi + parts_lo then None
                else assemble parts parts_hi parts_lo
                              (HEXTET_COUNT - (parts_hi + parts_lo))
            | [] =>
                if negb (length parts =? HEXTET_COUNT) then None
                else if is_empty (hd [] parts) then None
                else if is_empty (last parts []) then None
                else assemble parts (length parts) 0 0
            end
      end.

(** [IPv6Address(address)._ip] for a text. *)
Definition parse_ipv6 (address : str) : option N :=
  if contains "/" address then None else ipv6_int_from_string address.

(** [ipaddress.ip_address(address)] *)
Definition ip_address (address : str) : result str ipaddress.address :=
  match parse_ipv4 address with
  | Some ip => Return (IPv4Address ip)
  | None =>
      match parse_ipv6 address with
      | Some ip => Return (IPv6Address ip)
      | None =>
          Raise (ValueError
                   (repr address ++ " does not appear to be an IPv4 or IPv6 address"))
      end
  end.

(** [str(octet)] *)
Definition octet_str (octet : N) : str := format_int (Z.of_N octet).

(** [ip_int.to_bytes(4, 'big')] for an IPv4 address, a number below 2^32. *)
Definition to_bytes4 (ip_int : N) : list N :=
  [ (ip_int / 2^24) mod 256; (ip_int / 2^16) mod 256;
    (ip_int / 2^8) mod 256; ip_int mod 256 ]%N.

(** [IPv4Address._string_from_ip_int], the text of [str(address)]: the
    four octets in decimal, joined by dots. *)
Definition string_from_ip_int (ip_int : N) : str :=
  join "." (map octet_str (to_bytes4 ip_int)).

(** A network: its address, its prefix length and the width of the family. *)
Record network : Type := { network_address : N; prefixlen : N; max_prefixlen : N }.

Definition IPv4Network (a : str) (prefix : N) : network :=
  {| network_address := match parse_ipv4 a with Some n => n | None => 0 end;
     prefixlen := prefix; max_prefixlen := 32 |}.

Definition IPv6Network (a : str) (prefix : N) : network :=
  {| network_address := match parse_ipv6 a with Some n => n | None => 0 end;
     prefixlen := prefix; max_prefixlen := 128 |}.

Definition broadcast_address (net : network) : N :=
  N.lor (network_address net) (N.ones (max_prefixlen net - prefixlen net)).

(** [ip in net] for an address of the network's family. *)
Definition contains_ip (net : network) (ip : N) : bool :=
  ((network_address net <=? ip) && (ip <=? broadcast_address net))%N.

Definition IPv4_private_networks : list network :=
  [ IPv4Network "0.0.0.0" 8;
    IPv4Network "10.0.0.0" 8;
    IPv4Network "127.0.0.0" 8;
    IPv4Network "169.254.0.0" 16;
    IPv4Network "172.16.0.0" 12;
    IPv4Network "192.0.0.0" 29;
    IPv4Network "192.0.0.170" 31;
    IPv4Network "192.0.2.0" 24;
    IPv4Network "192.168.0.0" 16;
    IPv4Network "198.18.0.0" 15;
    IPv4Network "198.51.100.0" 24;
    IPv4Network "203.0.113.0" 24;
    IPv4Network "240.0.0.0" 4;
    IPv4Network "255.255.255.255" 32 ].

Definition IPv6_private_networks : list network :=
  [ IPv6Network "::1" 128;
    IPv6Network "::" 128;
    IPv6Network "::ffff:0:0" 96;
    IPv6Network "100::" 64;
    IPv6Network "2001::" 23;
    IPv6Network "2001:2::" 48;
    IPv6Network "2001:db8::" 32;
    IPv6Network "2001:10::" 28;
    IPv6Network "fc00::" 7;
    IPv6Network "fe80::" 10 ].

(** The [is_private] property. *)
Definition is_private (a : address) : bool :=
  match a with
  | IPv4Address ip => existsb (fun net => contains_ip net ip) IPv4_private_networks
  | IPv6Address ip => existsb (fun net => contains_ip net ip) IPv6_private_networks
  end.

End ipaddress.

(** ** oniongate/validators.py *)

Module validators.
Import pystr.
Import re.
Open Scope re_scope.

(** The keys of [current_app.config] the validators read.
    [FQDN_REGISTRATION_CLOSED] is read with [config.get] and may be
    absent; the others are read with [config[...]]. *)
Record config : Type := {
  MIN_SUBDOMAIN_LENGTH : Z;
  DOMAIN_BLACKLIST : list str;
  SUBDOMAIN_HOST : str;
  FQDN_REGISTRATION_CLOSED : option bool;
  ALLOWED_DNS_RECORD_TYPES : list text
}.

(** The dictionary [{'label': ..., 'zone': ...}] returned by
    [domain_name]; [None] is Python's [None]. *)
Record classification : Type := { label : option str; zone : str }.

(** Truth value of [config.get(key)]. *)
Definition truthy (v : option bool) : bool :=
  match v with Some b => b | None => false end.

(** r"^[a-z0-9]{16}.onion$" *)
Definition onion_pattern : regex :=
  Bos ;; Repeat 16 (Some 16) (OneOf [Range "a" "z"; Range "0" "9"]) ;;
  Any ;; word "onion" Eos.

Definition is_onion_address (onion_address : str) : bool :=
  is_match false onion_pattern onion_address.

(** "(?!-)[A-Z\d\-\_]{1,63}(?<!-)$" *)
Definition label_pattern : regex :=
  NotAhead (Lit "-") ;;
  Repeat 1 (Some 63) (OneOf [Range "A" "Z"; Digit; Esc "-"; Esc "_"]) ;;
  NotBehind 1 (Lit "-") ;; Eos.

Definition is_valid_label (label : str) (hostname : bool) : bool :=
  let regex := label_pattern in
  (* Underscores are not allowed in hostnames *)
  let regex := if hostname then drop_escaped "_" regex else regex in
  is_match true regex label.

(** [def label(label)]: the field of the result record has the name. *)
Definition label_ (label : str) : result str str :=
  if negb (is_valid_label label false)
  then Raise (ValueError (label ++ " is not a valid DNS label"))
  else Return label.

(** The character set of the label pattern once [hostname] has been
    taken into account. *)
Definition label_items (hostname : bool) : list set_item :=
  if hostname then [Range "A" "Z"; Digit; Esc "-"]
  else [Range "A" "Z"; Digit; Esc "-"; Esc "_"].

(** r"[\d.]+$" *)
Definition numeric_pattern : regex :=
  Repeat 1 None (OneOf [Digit; Esc "."]) ;; Eos.

Definition is_valid_hostname (hostname : str) : bool :=
  if 255 <? length hostname then false
  (* must be not all-numeric, so that it can't be confused with an IP address *)
  else if is_match false numeric_pattern hostname then false
  else forallb (fun x => is_valid_label x true) (split "." hostname).

Definition fqdn_closed_message : str :=
  "It is not possible to register a full domain at the present time. " ++
  "Please choose a sub-domain or contact the administrators".

Definition domain_name (cfg : config) (domain_name_str : str)
  : result str classification :=
  match domain_name_str with
  | [] => Raise (ValueError "You must specify a domain name")
  | _ :: _ =>
      let is_subdomain := negb (contains "." domain_name_str) in
      let domain_name_str :=
        match last_char domain_name_str with
        | Some "."%char => drop_last domain_name_str  (* strip one dot from the right *)
        | _ => domain_name_str
        end in
      let is_valid := is_valid_hostname domain_name_str in
      if is_subdomain then
        if negb is_valid then
          Raise (ValueError (domain_name_str ++ " is not a valid sub-domain name."))
        else
          let min_subdomain_len := MIN_SUBDOMAIN_LENGTH cfg in
          if (len domain_name_str <? min_subdomain_len)%Z then
            Raise (ValueError ("The subdomain must be at least " ++
                               format_int min_subdomain_len ++
                               " characters long."))
          else if mem domain_name_str (DOMAIN_BLACKLIST cfg) then
            Raise (ValueError "This subdomain is not allowed")
          else
            Return {| label := Some (lower domain_name_str);
                      zone := lower (SUBDOMAIN_HOST cfg) |}
      else
        if negb is_valid || negb (contains "." domain_name_str) then
          Raise (ValueError (domain_name_str ++ " is not a valid domain name"))
        else if startswith domain_name_str "www." then
          Raise (ValueError "The domain name should not include the www. label")
        else if truthy (FQDN_REGISTRATION_CLOSED cfg) then
          Raise (ValueError fqdn_closed_message)
        else if mem domain_name_str (DOMAIN_BLACKLIST cfg) then
          Raise (ValueError "The domain is not allowed")
        else
          Return {| label := None; zone := lower domain_name_str |}
  end.

Definition ip_address (ip_address_str : str) : result str ipaddress.address :=
  match ipaddress.ip_address ip_address_str with
  | Raise e => Raise e
  | Return ip =>
      if ipaddress.is_private ip then
        Raise (ValueError "Only public IP addresses are valid")
      else Return ip
  end.

Definition allowed_dns_record_type (cfg : config) (record_type : str)
  : result text text :=
  let record_type := upper (strip record_type) in
  let allowed_types := ALLOWED_DNS_RECORD_TYPES cfg in
  if negb (text_mem record_type allowed_types) then
    Raise (ValueError (record_type ++
                       wide " is not an allowed DNS record type. Only types " ++
                       join (wide ", ") allowed_types ++ wide " are allowed"))
  else Return record_type.

End validators.

(** ** The vocabulary of the specification

    Definitions that follow the words of the specification, to which the
    code above is compared. *)

Module spec.
Import pystr.
Import validators.

(** The two failure conditions of the error taxonomy.  The validators
    raise [ValueError] for both, so the condition is read off the
    message: [RegistrationClosed] is the failure raised when root-domain
    registration is administratively disabled, [InvalidInput] every
    other failure. *)
Inductive failure : Type := InvalidInput | RegistrationClosed.

Definition kind_of (e : exn str) : failure :=
  match e with
  | ValueError msg =>
      if eqb msg fqdn_closed_message then RegistrationClosed else InvalidInput
  end.

(** The same reading of a message given by its code points. *)
Definition kind_of_text (e : exn text) : failure :=
  match e with
  | ValueError msg =>
      if text_eqb msg (wide fqdn_closed_message) then RegistrationClosed
      else InvalidInput
  end.

(** A character of the set [A-Za-z0-9_-], underscore excluded in
    hostname mode. *)
Definition label_char (hostnameMode : bool) (c : ascii) : bool :=
  isupper c || islower c || isdigit c || Ascii.eqb c "-"
  || (negb hostnameMode && Ascii.eqb c "_").

(** "1-63 characters from the set, and does not start or end with a
    hyphen" *)
Definition valid_label (hostnameMode : bool) (s : str) : bool :=
  (1 <=? length s) && (length s <=? 63)
  && forallb (label_char hostnameMode) s
  && negb (startswith s "-")
  && negb (match last_char s with Some c => Ascii.eqb c "-" | None => false end).

(** "the whole string consists only of digits and dots" *)
Definition digit_or_dot (c : ascii) : bool := isdigit c || Ascii.eqb c ".".
Definition digits_and_dots (s : str) : bool := forallb digit_or_dot s.

(** "false if longer than 255 characters; false if the whole string
    matches an all-digits-and-dots pattern; otherwise true iff every
    dot-separated segment passes is_valid_label in hostname mode" *)
Definition valid_hostname (s : str) : bool :=
  if 255 <? length s then false
  else if digits_and_dots s then false
  else forallb (fun x => is_valid_label x true) (split "." s).

(** "exactly 16 lowercase alphanumeric characters followed by literal
    .onion, full-string anchored" *)
Definition lower_alnum (c : ascii) : bool := islower c || isdigit c.
Definition onion_address (s : str) : bool :=
  (length s =? 22)
  && forallb lower_alnum (firstn 16 s)
  && eqb (skipn 16 s) ".onion".

(** The text without one final line feed, if it has one: the part of the
    subject that a pattern ending in [$] has to cover. *)
Definition chomp (s : str) : str :=
  match last_char s with
  | Some "010"%char => drop_last s
  | _ => s
  end.

(** The name once [domain_name] has stripped one dot from its right end,
    if it ends with a dot. *)
Definition without_trailing_dot (s : str) : str :=
  match last_char s with
  | Some "."%char => drop_last s
  | _ => s
  end.

(** [sub in msg]: the message states the text [sub]. *)
Fixpoint mentions (msg sub : str) : bool :=
  startswith msg sub
  || match msg with
     | [] => false
     | _ :: msg' => mentions msg' sub
     end.

(** The first character of a text, if there is one, is not a space. *)
Definition no_leading_space (s : str) : Prop :=
  match s with c :: _ => isspace c = false | [] => True end.

(** The configuration of the end-to-end scenario, with the record types
    of the record-type scenario. *)
Definition scenario_config : config :=
  {| MIN_SUBDOMAIN_LENGTH := 3;
     DOMAIN_BLACKLIST := ["www" : str; "mail" : str];
     SUBDOMAIN_HOST := "example.com";
     FQDN_REGISTRATION_CLOSED := Some true;
     ALLOWED_DNS_RECORD_TYPES := [wide "A"; wide "AAAA"; wide "CNAME"] |}.

(** The same platform with root-domain registration open and a dotted
    name on the blacklist. *)
Definition open_config : config :=
  {| MIN_SUBDOMAIN_LENGTH := 3;
     DOMAIN_BLACKLIST := ["www" : str; "mail" : str; "co.uk" : str];
     SUBDOMAIN_HOST := "example.com";
     FQDN_REGISTRATION_CLOSED := None;
     ALLOWED_DNS_RECORD_TYPES := [wide "A"; wide "AAAA"; wide "CNAME"] |}.

End spec.

(** ** Checks by enumeration

    Boolean checks that the proofs run on every octet and on every
    hextet. *)

Module enumeration.
Import pystr.

(** [f] holds of every number of [k] bits. *)
Fixpoint all_bits (k : nat) (f : N -> bool) : bool :=
  match k with
  | 0 => f 0%N
  | S k' =>
      all_bits k' (fun x => f (2 * x)%N) && all_bits k' (fun x => f (2 * x + 1)%N)
  end.

(** A part of an address: not empty, and free of the separators. *)
Definition text_ok (s : str) : bool :=
  negb (contains "." s) && negb (contains "/" s) && negb (contains ":" s)
  && negb (is_empty s).

Definition octet_ok (o : N) : bool :=
  let s := ipaddress.octet_str o in
  match ipaddress.parse_octet s with
  | Some o' => (o' =? o)%N
  | None => false
  end && text_ok s.

Definition hextet_ok (h : N) : bool :=
  let s := ipaddress.format_hex h in
  match ipaddress.parse_hextet s with
  | Some h' => (h' =? h)%N
  | None => false
  end && text_ok s.

End enumeration.

(** * Properties *)

(** ** Facts about the string operations *)

Import pystr.
Import re.
Import validators.
Import spec.
Import enumeration.
Open Scope re_scope.

Ltac each_char c := destruct c as [[] [] [] [] [] [] [] []].

Section PystrFacts.


Lemma str_eqb_eq (a b : str) : eqb a b = true <-> a = b.
Proof.
  revert b; induction a as [|x a IH]; intros [|y b]; simpl; split;
    try congruence; try reflexivity.
  - rewrite andb_true_iff, Ascii.eqb_eq, IH. intros [-> ->]; reflexivity.
  - intros E; injection E as -> ->.
    rewrite Ascii.eqb_refl. simpl. apply IH; reflexivity.
Qed.

Lemma str_eqb_refl (a : str) : eqb a a = true.
Proof. apply str_eqb_eq; reflexivity. Qed.

Lemma mem_In (s : str) (l : list str) : mem s l = true <-> In s l.
Proof.
  unfold mem. rewrite existsb_exists. split.
  - intros (x & Hx & E). apply str_eqb_eq in E. subst; assumption.
  - intros H. exists s. split; [assumption | apply str_eqb_refl].
Qed.

Lemma mem_not_In (s : str) (l : list str) : mem s l = false <-> ~ In s l.
Proof.
  rewrite <- mem_In. destruct (mem s l); split; congruence.
Qed.

Lemma contains_In (c : ascii) (s : str) : contains c s = true <-> In c s.
Proof.
  unfold contains. rewrite existsb_exists. split.
  - intros (x & Hx & E). apply Ascii.eqb_eq in E. subst; assumption.
  - intros H. exists c. split; [assumption | apply Ascii.eqb_refl].
Qed.

Lemma contains_app (c : ascii) (s t : str) :
  contains c (s ++ t) = contains c s || contains c t.
Proof. apply existsb_app. Qed.

Lemma last_char_app (s : str) (c : ascii) : last_char (s ++ [c]) = Some c.
Proof.
  induction s as [|x s IH]; simpl; [reflexivity|].
  rewrite IH. destruct (s ++ [c]) eqn:E; [|reflexivity].
  destruct s; discriminate.
Qed.

Lemma drop_last_app (s : str) (c : ascii) : drop_last (s ++ [c]) = s.
Proof. apply removelast_last. Qed.

(** A non-empty string is its [s[:-1]] followed by its [s[-1]]. *)
Lemma last_char_Some (s : str) (c : ascii) :
  last_char s = Some c -> s = drop_last s ++ [c].
Proof.
  induction s as [|x s IH]; simpl; [discriminate|].
  destruct s as [|y s].
  - intros E; injection E as E; subst; reflexivity.
  - intros E. apply IH in E. unfold drop_last in *. simpl in *.
    f_equal. exact E.
Qed.

Lemma last_char_None (s : str) : last_char s = None -> s = [].
Proof.
  induction s as [|x s IH]; simpl; [reflexivity|].
  destruct s; [discriminate|]. intros E. apply IH in E. discriminate.
Qed.

Lemma lower_char_idem (c : ascii) : lower_char (lower_char c) = lower_char c.
Proof. each_char c; reflexivity. Qed.

Lemma lower_idem (s : str) : lower (lower s) = lower s.
Proof.
  unfold lower. rewrite map_map. apply map_ext. apply lower_char_idem.
Qed.

Lemma lower_char_not_upper (c : ascii) : isupper (lower_char c) = false.
Proof. each_char c; reflexivity. Qed.

Lemma split_not_nil (sep : ascii) (s : str) : split sep s <> [].
Proof.
  destruct s as [|c s]; simpl; [discriminate|].
  destruct (Ascii.eqb c sep); [discriminate|].
  destruct (split sep s); discriminate.
Qed.

(** [(s + sep + t).split(sep) == s.split(sep) + t.split(sep)] *)
Lemma split_app_sep (sep : ascii) (s t : str) :
  split sep (s ++ sep :: t) = split sep s ++ split sep t.
Proof.
  induction s as [|c s IH]; simpl.
  - rewrite Ascii.eqb_refl. reflexivity.
  - destruct (Ascii.eqb c sep); [rewrite IH; reflexivity|].
    rewrite IH. pose proof (split_not_nil sep s) as NE.
    destruct (split sep s); [congruence | reflexivity].
Qed.

Lemma split_no_sep (sep : ascii) (s : str) :
  contains sep s = false -> split sep s = [s].
Proof.
  induction s as [|c s IH]; simpl; [reflexivity|].
  rewrite Ascii.eqb_sym. destruct (Ascii.eqb c sep); simpl; [discriminate|].
  intros H. rewrite (IH H). reflexivity.
Qed.

(** [sep.join(parts).split(sep) == parts] when no part holds [sep]. *)
Lemma split_join (sep : ascii) (parts : list str) :
  parts <> [] ->
  Forall (fun p => contains sep p = false) parts ->
  split sep (join [sep] parts) = parts.
Proof.
  induction parts as [|p parts IH]; [congruence|].
  intros _ H. inversion H as [|? ? Hp Hparts]; subst.
  destruct parts as [|q parts].
  - cbn [join]. apply split_no_sep, Hp.
  - change (join [sep] (p :: q :: parts)) with (p ++ sep :: join [sep] (q :: parts)).
    rewrite split_app_sep, (split_no_sep sep p Hp), IH;
      [reflexivity | discriminate | exact Hparts].
Qed.

Lemma contains_join (c : ascii) (sep : str) (parts : list str) :
  contains c sep = false ->
  Forall (fun p => contains c p = false) parts ->
  contains c (join sep parts) = false.
Proof.
  intros Hsep. induction 1 as [|p parts Hp Hparts IH]; [reflexivity|].
  destruct parts as [|q parts]; [exact Hp|].
  change (join sep (p :: q :: parts)) with (p ++ sep ++ join sep (q :: parts)).
  rewrite !contains_app, Hp, Hsep, IH. reflexivity.
Qed.

End PystrFacts.

(** ** Facts about the matcher *)

Section ReFacts.

Lemma advance_0 (p : cursor) : advance 0 p = p.
Proof. destruct p; reflexivity. Qed.

Lemma advance_S (m : nat) (c : ascii) (b rest : str) :
  advance (S m) {| behind := b; ahead := c :: rest |}
  = advance m {| behind := c :: b; ahead := rest |}.
Proof.
  unfold advance; simpl. f_equal. rewrite <- app_assoc. reflexivity.
Qed.

(** A repetition of a one-character pattern matches exactly when some
    admissible number [m] of leading characters are all accepted and the
    continuation succeeds after them. *)
Lemma repeat_one (ok : ascii -> bool) (lo : nat) (hi : option nat)
      (k : cursor -> bool) (fuel n : nat) (p : cursor) :
  length (ahead p) < fuel ->
  (forall h, hi = Some h -> n <= h) ->
  repeat_loop (one ok) lo hi k fuel n p = true <->
  exists m, m <= length (ahead p) /\ lo <= n + m
            /\ (forall h, hi = Some h -> n + m <= h)
            /\ forallb ok (firstn m (ahead p)) = true
            /\ k (advance m p) = true.
Proof.
  revert n p. induction fuel as [|fuel IH]; intros n p Hf Hn; [lia|].
  simpl. rewrite orb_true_iff, !andb_true_iff. split.
  - intros [[Hh Hb] | [Hlo Hk]].
    + unfold one in Hb. destruct p as [b [|c rest]]; simpl in *; [discriminate|].
      apply andb_true_iff in Hb as [Hc Hb].
      apply andb_true_iff in Hb as [_ Hb].
      apply IH in Hb; [|simpl; lia|].
      * destruct Hb as (m & Hm & Hlo & Hhi & Hall & Hk). simpl in *.
        exists (S m). simpl. rewrite Hc. repeat split; try lia; try assumption.
        -- intros h E. specialize (Hhi h E). lia.
        -- rewrite advance_S. exact Hk.
      * intros h E. subst hi. apply Nat.ltb_lt in Hh. lia.
    + exists 0. rewrite advance_0. apply Nat.leb_le in Hlo.
      repeat split; try lia; try assumption.
      intros h E. specialize (Hn h E). lia.
  - intros (m & Hm & Hlo & Hhi & Hall & Hk). destruct m as [|m].
    + right. rewrite advance_0 in Hk. split; [apply Nat.leb_le; lia | exact Hk].
    + left. destruct p as [b [|c rest]]; simpl in *; [lia|].
      apply andb_true_iff in Hall as [Hc Hall]. split.
      * destruct hi as [h|]; [|reflexivity].
        apply Nat.ltb_lt. specialize (Hhi h eq_refl). lia.
      * unfold one; simpl. rewrite Hc. simpl.
        apply andb_true_iff. split; [apply Nat.ltb_lt; lia|].
        apply IH; [simpl; lia | |].
        -- intros h E. specialize (Hhi h E). lia.
        -- exists m. simpl. rewrite advance_S in Hk.
           repeat split; try lia; try assumption.
           intros h E. specialize (Hhi h E). lia.
Qed.

Lemma exec_repeat_one (ic : bool) (ok : ascii -> bool) (r : regex)
      (lo : nat) (hi : option nat) (k : cursor -> bool) (s : str) :
  (forall p k', exec ic r p k' = one ok p k') ->
  exec ic (Repeat lo hi r) (start s) k = true <->
  exists m, m <= length s /\ lo <= m
            /\ (forall h, hi = Some h -> m <= h)
            /\ forallb ok (firstn m s) = true
            /\ k (advance m (start s)) = true.
Proof.
  intros Hr.
  change (exec ic (Repeat lo hi r) (start s) k)
    with (repeat_loop (exec ic r) lo hi k (S (length s)) 0 (start s)).
  assert (E : forall fuel n p,
             repeat_loop (exec ic r) lo hi k fuel n p
             = repeat_loop (one ok) lo hi k fuel n p).
  { induction fuel as [|fuel IH]; intros n p; simpl; [reflexivity|].
    rewrite Hr. unfold one. destruct (ahead p); [reflexivity|].
    rewrite IH. reflexivity. }
  rewrite E. rewrite repeat_one; simpl; [reflexivity | lia |].
  intros h _. lia.
Qed.
End ReFacts.


Section Chomp.
Lemma forallb_eq {A} (f g : A -> bool) (l : list A) :
  (forall x, f x = g x) -> forallb f l = forallb g l.
Proof.
  intros H. induction l as [|x l IH]; simpl; [reflexivity|].
  rewrite H, IH. reflexivity.
Qed.

Lemma chomp_app_newline (t : str) : chomp (t ++ [newline]) = t.
Proof.
  unfold chomp. rewrite last_char_app. apply drop_last_app.
Qed.

Lemma chomp_app_other (t : str) (c : ascii) :
  c <> newline -> chomp (t ++ [c]) = t ++ [c].
Proof.
  intros Hc. unfold chomp. rewrite last_char_app.
  destruct c as [[] [] [] [] [] [] [] []]; try reflexivity.
  exfalso; apply Hc; reflexivity.
Qed.

(** A text either ends with a line feed that [chomp] removes, or is left
    as it is and does not end with a line feed. *)
Lemma chomp_cases (s : str) :
  (s = chomp s ++ [newline]) \/ (chomp s = s /\ last_char s <> Some newline).
Proof.
  destruct (last_char s) as [c|] eqn:E.
  - pose proof (@last_char_Some _ _ E) as Hs.
    destruct (Ascii.eqb_spec c newline) as [->|Hc].
    + left. rewrite Hs at 2. rewrite chomp_app_newline. exact Hs.
    + right. split.
      * rewrite Hs. apply chomp_app_other; assumption.
      * intros H. injection H as H. contradiction.
  - right. apply last_char_None in E. subst. split; [reflexivity | discriminate].
Qed.

(** The prefix that a class repetition followed by [$] covers is the
    text without its final line feed. *)
Lemma prefix_before_eos (ok : ascii -> bool) (s : str) (m : nat) :
  ok newline = false ->
  m <= length s ->
  forallb ok (firstn m s) = true ->
  skipn m s = [] \/ skipn m s = [newline] ->
  firstn m s = chomp s.
Proof.
  intros Hnl Hm Hall Htail.
  pose proof (firstn_skipn m s) as Hs.
  destruct Htail as [E|E]; rewrite E in Hs.
  - rewrite app_nil_r in Hs. rewrite Hs in Hall |- *.
    destruct (chomp_cases s) as [C|[C _]]; [|symmetry; exact C].
    exfalso. rewrite C, forallb_app in Hall.
    apply andb_true_iff in Hall as [_ Hall]. simpl in Hall.
    rewrite Hnl in Hall. discriminate.
  - rewrite <- Hs at 2. rewrite chomp_app_newline. reflexivity.
Qed.

Lemma chomp_prefix (s : str) :
  firstn (length (chomp s)) s = chomp s
  /\ (skipn (length (chomp s)) s = [] \/ skipn (length (chomp s)) s = [newline]).
Proof.
  destruct (chomp_cases s) as [C|[C _]].
  - remember (chomp s) as t eqn:Ht. clear Ht. subst s.
    rewrite firstn_app, skipn_app, Nat.sub_diag, firstn_all, skipn_all.
    simpl. rewrite app_nil_r. auto.
  - rewrite C, firstn_all, skipn_all. auto.
Qed.

Lemma chomp_length (s : str) : length (chomp s) <= length s.
Proof.
  destruct (chomp_cases s) as [C|[C _]].
  - remember (chomp s) as t eqn:Ht. clear Ht. subst s.
    rewrite length_app. lia.
  - rewrite C. lia.
Qed.
End Chomp.

Section Patterns.
Lemma exec_eos (ic : bool) (p : cursor) (k : cursor -> bool) :
  exec ic Eos p k = true <->
  (ahead p = [] \/ ahead p = [newline]) /\ k p = true.
Proof.
  simpl. destruct (ahead p) as [|c [|d rest]].
  - intuition congruence.
  - rewrite andb_true_iff, Ascii.eqb_eq. split.
    + intros [-> H]. auto.
    + intros [[E|E] H]; [discriminate|]. injection E as ->. auto.
  - split; [discriminate|]. intros [[E|E] _]; discriminate.
Qed.

Lemma numeric_set (c : ascii) :
  set_match false [Digit; Esc "."] c = digit_or_dot c.
Proof.
  each_char c; reflexivity.
Qed.

(** [re.match(r"[\d.]+$", s)] succeeds exactly when [s], without its
    final line feed if it has one, is a non-empty run of digits and
    dots. *)
Lemma numeric_pattern_match (s : str) :
  is_match false numeric_pattern s
  = negb (is_empty (chomp s)) && digits_and_dots (chomp s).
Proof.
  apply eq_true_iff_eq. unfold is_match, numeric_pattern.
  change (exec false (Repeat 1 None (OneOf [Digit; Esc "."]);; Eos) (start s) (fun _ => true))
    with (exec false (Repeat 1 None (OneOf [Digit; Esc "."])) (start s)
               (fun p => exec false Eos p (fun _ => true))).
  rewrite (@exec_repeat_one false (set_match false [Digit; Esc "."]));
    [|reflexivity].
  rewrite andb_true_iff, negb_true_iff. split.
  - intros (m & Hm & Hlo & _ & Hall & Hk).
    apply exec_eos in Hk as [Htail _]. simpl in Htail.
    assert (E : firstn m s = chomp s).
    { apply (@prefix_before_eos (set_match false [Digit; Esc "."])); auto. }
    rewrite <- E. split.
    + destruct (firstn m s) eqn:F; [|reflexivity].
      apply (f_equal (@length _)) in F. rewrite length_firstn in F. simpl in F. lia.
    + etransitivity; [|exact Hall]. apply forallb_eq.
      intros c. symmetry. apply numeric_set.
  - intros [Hne Hall]. exists (length (chomp s)).
    destruct (chomp_prefix s) as [F T]. rewrite F.
    repeat split.
    + apply chomp_length.
    + destruct (chomp s); [discriminate | simpl; lia].
    + discriminate.
    + etransitivity; [|exact Hall]. apply forallb_eq.
      intros c. apply numeric_set.
    + apply exec_eos. simpl. auto.
Qed.

Lemma label_set (hostname : bool) (c : ascii) :
  set_match true (label_items hostname) c = label_char hostname c.
Proof. destruct hostname; each_char c; reflexivity. Qed.

Lemma lit_hyphen (c : ascii) : lit_match true "-" c = Ascii.eqb c "-".
Proof. each_char c; reflexivity. Qed.

Lemma rev_last_char (t : str) (c : ascii) :
  last_char t = Some c -> rev t = c :: rev (drop_last t).
Proof.
  intros E. apply last_char_Some in E. rewrite E at 1.
  rewrite rev_app_distr. reflexivity.
Qed.

(** What [(?<!-)$] checks after a non-empty prefix [t] has been
    consumed, with [rest] still ahead. *)
Lemma not_behind_hyphen_eos (t rest b : str) (c : ascii) :
  last_char t = Some c ->
  exec true (NotBehind 1 (Lit "-") ;; Eos)
       {| behind := rev t ++ b; ahead := rest |} (fun _ => true) = true
  <-> c <> "-"%char /\ (rest = [] \/ rest = [newline]).
Proof.
  intros E. rewrite (@rev_last_char t c E).
  cbn [exec rewind behind ahead app one].
  rewrite lit_hyphen, Nat.eqb_refl, andb_true_r, andb_true_iff, negb_true_iff.
  rewrite Ascii.eqb_neq.
  destruct rest as [|d [|e rest]].
  - intuition congruence.
  - rewrite andb_true_r, Ascii.eqb_eq. split.
    + intros [H ->]. auto.
    + intros [H [F|F]]; [discriminate|]. injection F as ->. auto.
  - split; [intros [_ F]; discriminate|].
    intros [_ [F|F]]; discriminate.
Qed.

Lemma firstn_head (m : nat) (s : str) :
  1 <= m -> startswith (firstn m s) "-" = startswith s "-".
Proof.
  destruct m; [lia|]. destruct s as [|c s]; [reflexivity|].
  intros _. cbn. destruct (firstn m s), s; reflexivity.
Qed.
Lemma not_ahead_hyphen (s : str) :
  exec true (Lit "-") (start s) (fun _ => true) = startswith s "-".
Proof.
  destruct s as [|c s]; [reflexivity|].
  change (exec true (Lit "-") (start (c :: s)) (fun _ => true))
    with (lit_match true "-" c && true).
  rewrite andb_true_r, lit_hyphen.
  destruct s; each_char c; reflexivity.
Qed.

Lemma label_pattern_hostname (hostname : bool) :
  (if hostname then drop_escaped "_" label_pattern else label_pattern)
  = (NotAhead (Lit "-") ;;
     Repeat 1 (Some 63) (OneOf (label_items hostname)) ;;
     NotBehind 1 (Lit "-") ;; Eos)%re.
Proof. destruct hostname; reflexivity. Qed.

(** [is_valid_label] accepts exactly the texts that, without their final
    line feed if they have one, are labels in the sense of the
    specification. *)
Lemma is_valid_label_chomp (s : str) (hostname : bool) :
  is_valid_label s hostname = valid_label hostname (chomp s).
Proof.
  apply eq_true_iff_eq. unfold is_valid_label, is_match.
  rewrite label_pattern_hostname.
  change (exec true (NotAhead (Lit "-") ;;
                     Repeat 1 (Some 63) (OneOf (label_items hostname)) ;;
                     NotBehind 1 (Lit "-") ;; Eos) (start s) (fun _ => true))
    with (negb (exec true (Lit "-") (start s) (fun _ => true))
          && exec true (Repeat 1 (Some 63) (OneOf (label_items hostname))) (start s)
                  (fun p => exec true (NotBehind 1 (Lit "-") ;; Eos) p (fun _ => true))).
  rewrite not_ahead_hyphen, andb_true_iff, negb_true_iff.
  rewrite (@exec_repeat_one true (set_match true (label_items hostname)));
    [|reflexivity].
  unfold valid_label. rewrite !andb_true_iff, !negb_true_iff. split.
  - intros [Hhd (m & Hm & Hlo & Hhi & Hall & Hk)].
    specialize (Hhi 63 eq_refl).
    destruct (last_char (firstn m s)) as [c|] eqn:El.
    2:{ apply last_char_None in El. apply (f_equal (@length _)) in El.
        rewrite length_firstn in El. simpl in El. lia. }
    unfold advance, start in Hk. cbn [ahead behind] in Hk.
    apply (proj1 (@not_behind_hyphen_eos _ _ _ _ El)) in Hk.
    destruct Hk as [Hc Htail].
    assert (E : firstn m s = chomp s).
    { apply (@prefix_before_eos (set_match true (label_items hostname)));
        auto. destruct hostname; reflexivity. }
    rewrite <- E, El, length_firstn, firstn_head by assumption.
    repeat split.
    + apply Nat.leb_le. lia.
    + apply Nat.leb_le. lia.
    + etransitivity; [|exact Hall]. apply forallb_eq.
      intros x. symmetry. apply label_set.
    + exact Hhd.
    + apply Ascii.eqb_neq. exact Hc.
  - intros [[[[Hlo Hhi] Hall] Hhd] Hlast].
    apply Nat.leb_le in Hlo. apply Nat.leb_le in Hhi.
    destruct (chomp_prefix s) as [F T].
    rewrite <- F, firstn_head in Hhd by lia. split; [exact Hhd|].
    exists (length (chomp s)). rewrite F. repeat split.
    + apply chomp_length.
    + exact Hlo.
    + intros h Eh. injection Eh as <-. exact Hhi.
    + etransitivity; [|exact Hall]. apply forallb_eq.
      intros x. apply label_set.
    + unfold advance, start. cbn [ahead behind]. rewrite F.
      destruct (last_char (chomp s)) as [c|] eqn:El.
      2:{ apply last_char_None in El. rewrite El in Hlo. simpl in Hlo. lia. }
      apply (@not_behind_hyphen_eos _ _ _ _ El). split; [|exact T].
      apply Ascii.eqb_neq. exact Hlast.
Qed.

Lemma exec_word (w : str) (r : regex) (b rest : str) (k : cursor -> bool) :
  exec false (word w r) {| behind := b; ahead := rest |} k = true <->
  exists rest', rest = w ++ rest'
                /\ exec false r {| behind := rev w ++ b; ahead := rest' |} k = true.
Proof.
  revert b rest. induction w as [|x w IH]; intros b rest.
  - simpl. split; [intros H; exists rest; auto | intros (r' & -> & H); exact H].
  - change (exec false (word (x :: w) r) {| behind := b; ahead := rest |} k)
      with (one (lit_match false x) {| behind := b; ahead := rest |}
                (fun p' => exec false (word w r) p' k)).
    unfold one, lit_match. cbn [ahead behind].
    destruct rest as [|c rest].
    + split; [discriminate | intros (r' & E & _); discriminate].
    + rewrite andb_true_iff, Ascii.eqb_eq, IH. split.
      * intros [-> (r' & -> & H)]. exists r'. split; [reflexivity|].
        simpl. rewrite <- app_assoc. exact H.
      * intros (r' & E & H). injection E as -> ->. split; [reflexivity|].
        exists r'. split; [reflexivity|].
        simpl in H. rewrite <- app_assoc in H. exact H.
Qed.

Lemma onion_set (c : ascii) :
  set_match false [Range "a" "z"; Range "0" "9"] c = lower_alnum c.
Proof. each_char c; reflexivity. Qed.

(** [is_onion_address] accepts exactly the texts that, without their
    final line feed if they have one, are 16 lowercase alphanumerics, one
    character other than a line feed, and the word [onion]. *)
Lemma is_onion_address_iff (s : str) :
  is_onion_address s = true <->
  exists p c, chomp s = p ++ c :: "onion"
              /\ length p = 16 /\ forallb lower_alnum p = true
              /\ c <> newline.
Proof.
  unfold is_onion_address, is_match, onion_pattern.
  change (exec false (Bos ;; Repeat 16 (Some 16) (OneOf [Range "a" "z"; Range "0" "9"]) ;;
                      Any ;; word "onion" Eos) (start s) (fun _ => true))
    with (exec false (Repeat 16 (Some 16) (OneOf [Range "a" "z"; Range "0" "9"]))
               (start s)
               (fun p => one (fun c => negb (Ascii.eqb c newline)) p
                           (fun p' => exec false (word "onion" Eos) p' (fun _ => true)))).
  rewrite (@exec_repeat_one false (set_match false [Range "a" "z"; Range "0" "9"]));
    [|reflexivity].
  split.
  - intros (m & Hm & Hlo & Hhi & Hall & Hk).
    specialize (Hhi 16 eq_refl). assert (m = 16) by lia. subst m.
    unfold one, advance, start in Hk. cbn [ahead behind] in Hk.
    destruct (skipn 16 s) as [|c rest] eqn:Es; [discriminate|].
    apply andb_true_iff in Hk as [Hc Hk]. apply negb_true_iff, Ascii.eqb_neq in Hc.
    apply exec_word in Hk as (rest' & -> & Hk).
    apply exec_eos in Hk as [Htail _]. cbn [ahead] in Htail.
    exists (firstn 16 s), c. repeat split.
    + rewrite <- (firstn_skipn 16 s) at 1. rewrite Es.
      destruct Htail as [-> | ->].
      * change (firstn 16 s ++ c :: "onion" ++ [])
          with (firstn 16 s ++ (c :: "onio") ++ ["n"%char]).
        rewrite app_assoc, chomp_app_other by discriminate.
        rewrite <- app_assoc. reflexivity.
      * change (firstn 16 s ++ c :: "onion" ++ [newline])
          with (firstn 16 s ++ (c :: "onion") ++ [newline]).
        rewrite app_assoc, chomp_app_newline. reflexivity.
    + rewrite length_firstn. lia.
    + etransitivity; [|exact Hall]. apply forallb_eq.
      intros x. symmetry. apply onion_set.
    + exact Hc.
  - intros (p & c & E & Hp & Hall & Hc).
    assert (Hs : exists rest', s = p ++ c :: "onion" ++ rest'
                               /\ (rest' = [] \/ rest' = [newline])).
    { destruct (chomp_cases s) as [C|[C _]]; rewrite E in C.
      - exists [newline]. split; [|auto]. rewrite C, <- app_assoc. reflexivity.
      - exists []. split; [|auto]. rewrite <- C. reflexivity. }
    destruct Hs as (rest' & -> & Htail).
    exists 16. rewrite length_app, Hp. repeat split.
    + lia.
    + lia.
    + intros h Eh. injection Eh as <-. lia.
    + rewrite firstn_app, Hp, firstn_all2 by lia. simpl. rewrite app_nil_r.
      etransitivity; [|exact Hall]. apply forallb_eq. intros x. apply onion_set.
    + unfold one, advance, start. cbn [ahead behind].
      rewrite skipn_app, Hp, skipn_all2 by lia. simpl skipn. cbn [app].
      apply andb_true_iff. split; [apply negb_true_iff, Ascii.eqb_neq; exact Hc|].
      apply exec_word. exists rest'. split; [reflexivity|].
      apply exec_eos. auto.
Qed.
End Patterns.

(** ** Facts about [strip] and [upper] *)

Section Strip.
Lemma lstrip_spec (s : str) :
  exists l, s = l ++ lstrip s /\ forallb isspace l = true
            /\ no_leading_space (lstrip s).
Proof.
  induction s as [|c s (l & E & Hl & Hs)].
  - exists []. repeat split.
  - simpl. destruct (isspace c) eqn:Hc.
    + exists (c :: l). simpl. rewrite Hc, Hl, <- E. repeat split. exact Hs.
    + exists []. repeat split. exact Hc.
Qed.

Lemma forallb_rev {A} (f : A -> bool) (l : list A) :
  forallb f (rev l) = forallb f l.
Proof.
  induction l as [|x l IH]; [reflexivity|].
  simpl. rewrite forallb_app, IH. simpl. rewrite andb_true_r. apply andb_comm.
Qed.

(** [s.strip()] is [s] without a run of spaces at each end, and has no
    space at either end. *)
Lemma strip_spec (s : str) :
  exists l r, s = l ++ strip s ++ r
              /\ forallb isspace l = true /\ forallb isspace r = true
              /\ no_leading_space (strip s)
              /\ no_leading_space (rev (strip s)).
Proof.
  unfold strip, rstrip.
  destruct (lstrip_spec s) as (l & El & Hl & Hhead).
  destruct (lstrip_spec (rev (lstrip s))) as (r & Er & Hr & Hlast).
  exists l, (rev r). repeat split.
  - rewrite <- rev_app_distr, <- Er, rev_involutive. exact El.
  - exact Hl.
  - rewrite forallb_rev. exact Hr.
  - apply (f_equal (@rev _)) in Er. rewrite rev_involutive, rev_app_distr in Er.
    destruct (rev (lstrip (rev (lstrip s)))) as [|c t]; [exact I|].
    rewrite Er in Hhead. exact Hhead.
  - rewrite rev_involutive. exact Hlast.
Qed.

Lemma text_eqb_eq (a b : text) : text_eqb a b = true <-> a = b.
Proof.
  revert b; induction a as [|x a IH]; intros [|y b]; simpl; split;
    try congruence; try reflexivity.
  - rewrite andb_true_iff, N.eqb_eq, IH. intros [-> ->]; reflexivity.
  - intros E; injection E as -> ->.
    rewrite N.eqb_refl. simpl. apply IH; reflexivity.
Qed.

Lemma text_mem_In (s : text) (l : list text) : text_mem s l = true <-> In s l.
Proof.
  unfold text_mem. rewrite existsb_exists. split.
  - intros (x & Hx & E). apply text_eqb_eq in E. subst; assumption.
  - intros H. exists s. split; [assumption | apply text_eqb_eq; reflexivity].
Qed.

Lemma text_mem_not_In (s : text) (l : list text) :
  text_mem s l = false <-> ~ In s l.
Proof.
  rewrite <- text_mem_In. destruct (text_mem s l); split; congruence.
Qed.

Lemma ord_inj (c d : ascii) : ord c = ord d -> c = d.
Proof.
  intros H. rewrite <- (ascii_N_embedding c), <- (ascii_N_embedding d).
  unfold ord in H. rewrite H. reflexivity.
Qed.

Lemma wide_inj (s t : str) : wide s = wide t -> s = t.
Proof.
  revert t; induction s as [|c s IH]; intros [|d t] H; try discriminate H;
    [reflexivity|].
  injection H as Hc Hs. apply ord_inj in Hc. f_equal; auto.
Qed.

(** A character of the alphabet found in upper-cased text is no letter
    a-z, and is its own capital. *)
Lemma upper_char_fixed (c d : ascii) :
  In (ord d) (upper_char c) -> islower d = false /\ upper_char d = [ord d].
Proof.
  intros H.
  assert (E : exists n, In n (upper_char c) /\ d = chr n /\ ord (chr n) = n).
  { exists (ord d). unfold chr, ord. rewrite ascii_N_embedding. auto. }
  clear H. destruct E as (n & H & -> & E). revert H E.
  each_char c; cbn; intros H E;
    repeat (destruct H as [<-|H]; [first [discriminate E | split; reflexivity]|]);
    destruct H.
Qed.

Lemma upper_fixed (s : str) (d : ascii) :
  In (ord d) (upper s) -> islower d = false /\ upper_char d = [ord d].
Proof.
  unfold upper. rewrite in_flat_map. intros (c & _ & H).
  exact (upper_char_fixed c d H).
Qed.

(** On ASCII text [upper] changes the letters a-z only. *)
Lemma upper_isascii (s : str) :
  isascii s = true ->
  upper s = wide (map (fun c => if islower c then chr (ord c - 32) else c) s).
Proof.
  induction s as [|c s IH]; [reflexivity|].
  cbn [isascii forallb]. intros H. apply andb_true_iff in H as [Hc Hs].
  change (upper (c :: s)) with (upper_char c ++ upper s).
  rewrite (IH Hs). cbn [map wide]. fold (wide (map (fun c => if islower c then chr (ord c - 32) else c) s)).
  f_equal. revert Hc. each_char c; intros Hc; try discriminate Hc; reflexivity.
Qed.
End Strip.

(** ** Facts about [domain_name] *)

Section DomainName.

(** [domain_name] in terms of the name left by the trailing-dot strip. *)
Lemma domain_name_unfold (cfg : config) (c : ascii) (s : str) :
  domain_name cfg (c :: s) =
  let name := without_trailing_dot (c :: s) in
  if negb (contains "." (c :: s)) then
    if negb (is_valid_hostname name) then
      Raise (ValueError (name ++ " is not a valid sub-domain name."))
    else if (len name <? MIN_SUBDOMAIN_LENGTH cfg)%Z then
      Raise (ValueError ("The subdomain must be at least " ++
                         format_int (MIN_SUBDOMAIN_LENGTH cfg) ++
                         " characters long."))
    else if mem name (DOMAIN_BLACKLIST cfg) then
      Raise (ValueError "This subdomain is not allowed")
    else Return {| label := Some (lower name);
                   zone := lower (SUBDOMAIN_HOST cfg) |}
  else
    if negb (is_valid_hostname name) || negb (contains "." name) then
      Raise (ValueError (name ++ " is not a valid domain name"))
    else if startswith name "www." then
      Raise (ValueError "The domain name should not include the www. label")
    else if truthy (FQDN_REGISTRATION_CLOSED cfg) then
      Raise (ValueError fqdn_closed_message)
    else if mem name (DOMAIN_BLACKLIST cfg) then
      Raise (ValueError "The domain is not allowed")
    else Return {| label := None; zone := lower name |}.
Proof. reflexivity. Qed.

Lemma last_char_In (s : str) (c : ascii) : last_char s = Some c -> In c s.
Proof.
  intros E. apply last_char_Some in E. rewrite E.
  apply in_or_app. right. left. reflexivity.
Qed.

(** Nothing is stripped from a name that has no dot. *)
Lemma without_trailing_dot_no_dot (s : str) :
  contains "." s = false -> without_trailing_dot s = s.
Proof.
  intros H. unfold without_trailing_dot.
  destruct (last_char s) as [c|] eqn:E; [|reflexivity].
  destruct (Ascii.eqb_spec c ".") as [->|Hc].
  - apply last_char_In, contains_In in E. congruence.
  - each_char c; try reflexivity. congruence.
Qed.

(** Nor from a name that does not end with a dot. *)
Lemma without_trailing_dot_other (s : str) :
  last_char s <> Some "."%char -> without_trailing_dot s = s.
Proof.
  intros H. unfold without_trailing_dot.
  destruct (last_char s) as [c|]; [|reflexivity].
  each_char c; try reflexivity. congruence.
Qed.

Lemma without_trailing_dot_app (s : str) : without_trailing_dot (s ++ ".") = s.
Proof.
  unfold without_trailing_dot.
  change (s ++ ".") with (s ++ ["."%char]).
  rewrite last_char_app. apply drop_last_app.
Qed.

(** [is_valid_label] rejects the empty text. *)
Lemma is_valid_label_nil (hostname : bool) : is_valid_label [] hostname = false.
Proof. destruct hostname; reflexivity. Qed.

(** A valid hostname is not empty and does not end with a dot. *)
Lemma is_valid_hostname_last (s : str) :
  is_valid_hostname s = true -> s <> [] /\ last_char s <> Some "."%char.
Proof.
  intros H. split.
  - intros ->. discriminate.
  - intros E. apply last_char_Some in E. unfold is_valid_hostname in H.
    destruct (255 <? length s); [discriminate|].
    destruct (is_match false numeric_pattern s); [discriminate|].
    rewrite E in H. change (drop_last s ++ ["."%char]) with (drop_last s ++ "."%char :: []) in H.
    rewrite split_app_sep, forallb_app in H.
    apply andb_true_iff in H as [_ H].
    change (split "." []) with [[] : str] in H. cbn [forallb] in H.
    rewrite is_valid_label_nil in H. discriminate.
Qed.

(** A message that ends otherwise than the registration-closed message
    is an [InvalidInput] failure. *)
Lemma kind_of_suffix (a x : str) :
  length x <= length fqdn_closed_message ->
  skipn (length fqdn_closed_message - length x) fqdn_closed_message <> x ->
  kind_of (ValueError (a ++ x)) = InvalidInput.
Proof.
  intros Hlen Hx. unfold kind_of.
  destruct (eqb (a ++ x) fqdn_closed_message) eqn:E; [|reflexivity].
  apply str_eqb_eq in E. exfalso. apply Hx. rewrite <- E.
  rewrite length_app, Nat.add_sub, skipn_app, skipn_all, Nat.sub_diag.
  reflexivity.
Qed.

Lemma kind_of_text_suffix (a : text) (x : str) :
  length x <= length fqdn_closed_message ->
  skipn (length fqdn_closed_message - length x) fqdn_closed_message <> x ->
  kind_of_text (ValueError (a ++ wide x)) = InvalidInput.
Proof.
  intros Hlen Hx. unfold kind_of_text.
  destruct (text_eqb (a ++ wide x) (wide fqdn_closed_message)) eqn:E;
    [|reflexivity].
  apply text_eqb_eq in E. exfalso. apply Hx. apply wide_inj.
  unfold wide at 1. rewrite <- skipn_map. fold (wide fqdn_closed_message).
  rewrite <- E.
  assert (L : length a = length fqdn_closed_message - length x).
  { apply (f_equal (@length _)) in E. unfold wide in E.
    rewrite length_app, !length_map in E. lia. }
  rewrite <- L, skipn_app, skipn_all, Nat.sub_diag. reflexivity.
Qed.

Lemma Raise_inj {T A} (a b : exn T) : @Raise T A a = Raise b -> a = b.
Proof. congruence. Qed.
End DomainName.

(** Proves that a failure whose message ends in a known text is an
    [InvalidInput] failure. *)
Ltac invalid_input :=
  solve [ reflexivity
        | apply kind_of_suffix; [vm_compute; lia | vm_compute; discriminate]
        | rewrite app_assoc; apply kind_of_suffix;
          [vm_compute; lia | vm_compute; discriminate] ].

Ltac not_closed E K :=
  apply Raise_inj in E; subst; exfalso; revert K;
  match goal with
  | |- ?k = RegistrationClosed -> False =>
      assert (k = InvalidInput) as -> by invalid_input; discriminate
  end.

Section DomainNameFailures.

(** The registration-closed failure is raised for root-domain
    submissions under closed registration, and for nothing else. *)
Lemma domain_name_closed_only (cfg : config) (s : str) (e : exn str) :
  domain_name cfg s = Raise e ->
  kind_of e = RegistrationClosed ->
  truthy (FQDN_REGISTRATION_CLOSED cfg) = true
  /\ contains "." s = true
  /\ is_valid_hostname (without_trailing_dot s) = true
  /\ startswith (without_trailing_dot s) "www." = false.
Proof.
  destruct s as [|c s]; [intros E K; not_closed E K|].
  rewrite domain_name_unfold. cbv zeta.
  set (name := without_trailing_dot (c :: s)).
  destruct (contains "." (c :: s)); cbn [negb].
  - destruct (is_valid_hostname name); cbn [negb orb].
    + destruct (contains "." name); cbn [negb].
      * destruct (startswith name "www."); [intros E K; not_closed E K|].
        destruct (truthy (FQDN_REGISTRATION_CLOSED cfg)); [auto|].
        destruct (mem name (DOMAIN_BLACKLIST cfg));
          [intros E K; not_closed E K | discriminate].
      * intros E K; not_closed E K.
    + intros E K; not_closed E K.
  - destruct (is_valid_hostname name); cbn [negb].
    + destruct (len name <? MIN_SUBDOMAIN_LENGTH cfg)%Z;
        [intros E K; not_closed E K|].
      destruct (mem name (DOMAIN_BLACKLIST cfg));
        [intros E K; not_closed E K | discriminate].
    + intros E K; not_closed E K.
Qed.

Lemma lower_no_upper (s : str) :
  forallb (fun c => negb (isupper c)) (lower s) = true.
Proof.
  apply forallb_forall. intros c Hc. apply in_map_iff in Hc as (d & <- & _).
  rewrite lower_char_not_upper. reflexivity.
Qed.

Lemma startswith_app (b c : str) : startswith (b ++ c) b = true.
Proof.
  induction b as [|x b IH]; simpl; [destruct c; reflexivity|].
  rewrite Ascii.eqb_refl. exact IH.
Qed.

Lemma mentions_prefix (m sub : str) :
  startswith m sub = true -> mentions m sub = true.
Proof. intros H. destruct m; cbn [mentions]; rewrite H; reflexivity. Qed.

Lemma mentions_app (a b c : str) : mentions (a ++ b ++ c) b = true.
Proof.
  induction a as [|x a IH].
  - apply mentions_prefix. exact (startswith_app b c).
  - cbn [app mentions]. rewrite IH. apply orb_true_r.
Qed.

(** A name that is on the blacklist exactly as submitted (after the
    trailing-dot strip) is rejected in both branches. *)
Lemma domain_name_blacklist_exact (cfg : config) (s : str) :
  mem (without_trailing_dot s) (DOMAIN_BLACKLIST cfg) = true ->
  exists e, domain_name cfg s = Raise e.
Proof.
  intros H. destruct s as [|c s]; [eexists; reflexivity|].
  rewrite domain_name_unfold. cbv zeta. rewrite H.
  repeat match goal with
         | |- context [if ?b then _ else _] => destruct b
         end; eexists; reflexivity.
Qed.
End DomainNameFailures.

(** ** Facts about [ipaddress] *)

Section IpFacts.

Lemma all_bits_spec (k : nat) (f : N -> bool) :
  all_bits k f = true -> forall x, (x < 2 ^ N.of_nat k)%N -> f x = true.
Proof.
  revert f. induction k as [|k IH]; intros f H x Hx.
  - simpl in Hx. assert (x = 0%N) as -> by lia. exact H.
  - cbn [all_bits] in H. apply andb_true_iff in H as [H0 H1].
    rewrite Nat2N.inj_succ, N.pow_succ_r' in Hx.
    destruct (N.even x) eqn:Ev.
    + apply N.even_spec in Ev as [y ->].
      apply (IH _ H0 y). lia.
    + assert (Od : N.odd x = true) by (rewrite <- N.negb_even, Ev; reflexivity).
      apply N.odd_spec in Od as [y ->].
      apply (IH _ H1 y). lia.
Qed.

Lemma text_ok_spec (s : str) :
  text_ok s = true ->
  contains "." s = false /\ contains "/" s = false
  /\ contains ":" s = false /\ is_empty s = false.
Proof.
  unfold text_ok. rewrite !andb_true_iff, !negb_true_iff. tauto.
Qed.

Lemma octets_ok : all_bits 8 octet_ok = true.
Proof. vm_compute. reflexivity. Qed.

(** The decimal text of an octet is read back as the octet. *)
Lemma octet_facts (o : N) :
  (o < 256)%N ->
  ipaddress.parse_octet (ipaddress.octet_str o) = Some o
  /\ contains "." (ipaddress.octet_str o) = false
  /\ contains "/" (ipaddress.octet_str o) = false
  /\ contains ":" (ipaddress.octet_str o) = false
  /\ ipaddress.octet_str o <> [].
Proof.
  intros H. pose proof (@all_bits_spec 8 octet_ok octets_ok o H) as A.
  unfold octet_ok in A. cbv zeta in A. apply andb_true_iff in A as [A1 A2].
  destruct (text_ok_spec _ A2) as (T1 & T2 & T3 & T4).
  destruct (ipaddress.parse_octet (ipaddress.octet_str o)) as [o'|];
    [|discriminate].
  apply N.eqb_eq in A1. subst o'. repeat split; try assumption.
  intros E. rewrite E in T4. discriminate.
Qed.

Lemma hextets_ok : all_bits 16 hextet_ok = true.
Proof. vm_compute. reflexivity. Qed.

(** The hexadecimal text of a hextet is read back as the hextet. *)
Lemma hextet_facts (h : N) :
  (h < 65536)%N ->
  ipaddress.parse_hextet (ipaddress.format_hex h) = Some h
  /\ contains "." (ipaddress.format_hex h) = false
  /\ contains "/" (ipaddress.format_hex h) = false
  /\ contains ":" (ipaddress.format_hex h) = false
  /\ is_empty (ipaddress.format_hex h) = false.
Proof.
  intros H. pose proof (@all_bits_spec 16 hextet_ok hextets_ok h H) as A.
  unfold hextet_ok in A. cbv zeta in A. apply andb_true_iff in A as [A1 A2].
  destruct (text_ok_spec _ A2) as (T1 & T2 & T3 & T4).
  destruct (ipaddress.parse_hextet (ipaddress.format_hex h)) as [h'|];
    [|discriminate].
  apply N.eqb_eq in A1. subst h'. repeat split; assumption.
Qed.

Lemma lor_shiftl_byte (x d : N) :
  (d < 256)%N -> N.lor (N.shiftl x 8) d = (x * 256 + d)%N.
Proof.
  intros H. rewrite N.shiftl_mul_pow2. change (2 ^ 8)%N with 256%N.
  rewrite <- N.lxor_lor, <- N.add_nocarry_lxor; [reflexivity| |];
    apply N.bits_inj_0; intros i; rewrite N.land_spec;
    destruct (N.lt_ge_cases i 8) as [Hi|Hi].
  1,3: change 256%N with (2 ^ 8)%N; rewrite N.mul_pow2_bits_low by exact Hi; reflexivity.
  1,2: rewrite (N.bits_above_log2 d i), andb_false_r; [reflexivity|];
       destruct (N.eq_dec d 0) as [->|Hd]; [simpl; lia|];
       apply N.log2_lt_pow2; [lia|];
       apply N.lt_le_trans with (2 ^ 8)%N; [exact H|];
       apply N.pow_le_mono_r; lia.
Qed.

Lemma shift_in_bytes4 (a b c d : N) :
  (a < 256)%N -> (b < 256)%N -> (c < 256)%N -> (d < 256)%N ->
  ipaddress.shift_in 8 0 [a; b; c; d]
  = (((a * 256 + b) * 256 + c) * 256 + d)%N.
Proof.
  intros Ha Hb Hc Hd. unfold ipaddress.shift_in. cbn [fold_left].
  rewrite !lor_shiftl_byte by assumption. reflexivity.
Qed.

Lemma to_bytes4_value (n : N) :
  (n < 2 ^ 32)%N ->
  let a := (n / 2^24 mod 256)%N in let b := (n / 2^16 mod 256)%N in
  let c := (n / 2^8 mod 256)%N in let d := (n mod 256)%N in
  (((a * 256 + b) * 256 + c) * 256 + d)%N = n.
Proof.
  intros H. cbv zeta.
  change (2^24)%N with 16777216%N. change (2^16)%N with 65536%N.
  change (2^8)%N with 256%N. change (2^32)%N with 4294967296%N in H.
  zify. Z.to_euclidean_division_equations. lia.
Qed.

Lemma parse_ipv4_string (n : N) :
  (n < 2 ^ 32)%N -> ipaddress.parse_ipv4 (ipaddress.string_from_ip_int n) = Some n.
Proof.
  intros H. unfold ipaddress.string_from_ip_int, ipaddress.to_bytes4.
  set (a := (n / 2^24 mod 256)%N). set (b := (n / 2^16 mod 256)%N).
  set (c := (n / 2^8 mod 256)%N). set (d := (n mod 256)%N).
  assert (Ha : (a < 256)%N) by (apply N.mod_lt; discriminate).
  assert (Hb : (b < 256)%N) by (apply N.mod_lt; discriminate).
  assert (Hc : (c < 256)%N) by (apply N.mod_lt; discriminate).
  assert (Hd : (d < 256)%N) by (apply N.mod_lt; discriminate).
  destruct (@octet_facts a Ha) as (Pa & Da & Sa & _ & Na).
  destruct (@octet_facts b Hb) as (Pb & Db & Sb & _ & _).
  destruct (@octet_facts c Hc) as (Pc & Dc & Sc & _ & _).
  destruct (@octet_facts d Hd) as (Pd & Dd & Sd & _ & _).
  cbn [map join]. unfold ipaddress.parse_ipv4.
  rewrite !contains_app, Sa, Sb, Sc, Sd.
  change (contains "/" ".") with false. cbn [orb].
  unfold ipaddress.ipv4_int_from_string.
  assert (Hne : is_empty (ipaddress.octet_str a ++ "." ++ ipaddress.octet_str b ++ "." ++ ipaddress.octet_str c
                          ++ "." ++ ipaddress.octet_str d) = false).
  { destruct (ipaddress.octet_str a); [congruence | reflexivity]. }
  rewrite Hne.
  change (ipaddress.octet_str a ++ "." ++ ipaddress.octet_str b ++ "." ++ ipaddress.octet_str c ++ "." ++ ipaddress.octet_str d)
    with (ipaddress.octet_str a ++ "."%char :: (ipaddress.octet_str b ++ "."%char :: (ipaddress.octet_str c ++ "."%char :: ipaddress.octet_str d))).
  rewrite !split_app_sep, !@split_no_sep by assumption.
  cbn [app length Nat.eqb negb ipaddress.parse_all].
  rewrite Pa, Pb, Pc, Pd. cbn [option_map].
  rewrite shift_in_bytes4 by assumption.
  f_equal. apply to_bytes4_value. exact H.
Qed.

Lemma ip_address_string (n : N) :
  (n < 2 ^ 32)%N ->
  ipaddress.ip_address (ipaddress.string_from_ip_int n) = Return (ipaddress.IPv4Address n).
Proof.
  intros H. unfold ipaddress.ip_address. rewrite (@parse_ipv4_string n H).
  reflexivity.
Qed.

(** A text with no dot and no colon is no address. *)
Lemma ip_address_no_separator (s : str) :
  contains "." s = false -> contains ":" s = false ->
  ipaddress.ip_address s
  = Raise (ValueError (repr s ++ " does not appear to be an IPv4 or IPv6 address")).
Proof.
  intros Hd Hc. unfold ipaddress.ip_address.
  assert (E4 : ipaddress.parse_ipv4 s = None).
  { unfold ipaddress.parse_ipv4, ipaddress.ipv4_int_from_string.
    rewrite (@split_no_sep "." s Hd).
    destruct (contains "/" s); [reflexivity|].
    destruct (is_empty s); reflexivity. }
  assert (E6 : ipaddress.parse_ipv6 s = None).
  { unfold ipaddress.parse_ipv6, ipaddress.ipv6_int_from_string.
    rewrite (@split_no_sep ":" s Hc).
    destruct (contains "/" s); [reflexivity|].
    destruct (is_empty s); reflexivity. }
  rewrite E4, E6. reflexivity.
Qed.

Lemma contains_ip_true (net : ipaddress.network) (ip lo hi : N) :
  ipaddress.network_address net = lo ->
  ipaddress.broadcast_address net = hi ->
  (lo <= ip <= hi)%N ->
  ipaddress.contains_ip net ip = true.
Proof.
  intros <- <- [H1 H2]. unfold ipaddress.contains_ip.
  apply andb_true_iff. split; apply N.leb_le; assumption.
Qed.

(** The address blocks 10.0.0.0/8, 127.0.0.0/8, 172.16.0.0/12 and
    192.168.0.0/16 are private. *)
Lemma is_private_blocks (n : N) :
  (0x0A000000 <= n <= 0x0AFFFFFF \/ 0x7F000000 <= n <= 0x7FFFFFFF
   \/ 0xAC100000 <= n <= 0xAC1FFFFF \/ 0xC0A80000 <= n <= 0xC0A8FFFF)%N ->
  ipaddress.is_private (ipaddress.IPv4Address n) = true.
Proof.
  intros H. unfold ipaddress.is_private. apply existsb_exists.
  destruct H as [H|[H|[H|H]]].
  - exists (ipaddress.IPv4Network "10.0.0.0" 8). split; [simpl; tauto|].
    apply (@contains_ip_true _ n 0x0A000000 0x0AFFFFFF); [reflexivity..|exact H].
  - exists (ipaddress.IPv4Network "127.0.0.0" 8). split; [simpl; tauto|].
    apply (@contains_ip_true _ n 0x7F000000 0x7FFFFFFF); [reflexivity..|exact H].
  - exists (ipaddress.IPv4Network "172.16.0.0" 12). split; [simpl; tauto|].
    apply (@contains_ip_true _ n 0xAC100000 0xAC1FFFFF); [reflexivity..|exact H].
  - exists (ipaddress.IPv4Network "192.168.0.0" 16). split; [simpl; tauto|].
    apply (@contains_ip_true _ n 0xC0A80000 0xC0A8FFFF); [reflexivity..|exact H].
Qed.

(** The block 8.0.0.0/8 is not. *)
Lemma is_private_8 (n : N) :
  (0x08000000 <= n <= 0x08FFFFFF)%N ->
  ipaddress.is_private (ipaddress.IPv4Address n) = false.
Proof.
  intros H. unfold ipaddress.is_private, ipaddress.IPv4_private_networks.
  cbn [existsb]. unfold ipaddress.contains_ip.
  repeat match goal with
  | |- context [ipaddress.network_address ?net] =>
      let v := eval vm_compute in (ipaddress.network_address net) in
      change (ipaddress.network_address net) with v
  | |- context [ipaddress.broadcast_address ?net] =>
      let v := eval vm_compute in (ipaddress.broadcast_address net) in
      change (ipaddress.broadcast_address net) with v
  end.
  repeat match goal with
  | |- context [(?a <=? ?b)%N] =>
      first [ replace (a <=? b)%N with true by (symmetry; apply N.leb_le; lia)
            | replace (a <=? b)%N with false by (symmetry; apply N.leb_gt; lia) ]
  end.
  reflexivity.
Qed.

Lemma lor_shiftl_hextet (x d : N) :
  (d < 65536)%N -> N.lor (N.shiftl x 16) d = (x * 65536 + d)%N.
Proof.
  intros H. rewrite N.shiftl_mul_pow2. change (2 ^ 16)%N with 65536%N.
  rewrite <- N.lxor_lor, <- N.add_nocarry_lxor; [reflexivity| |];
    apply N.bits_inj_0; intros i; rewrite N.land_spec;
    destruct (N.lt_ge_cases i 16) as [Hi|Hi].
  1,3: change 65536%N with (2 ^ 16)%N; rewrite N.mul_pow2_bits_low by exact Hi; reflexivity.
  1,2: rewrite (N.bits_above_log2 d i), andb_false_r; [reflexivity|];
       destruct (N.eq_dec d 0) as [->|Hd]; [simpl; lia|];
       apply N.log2_lt_pow2; [lia|];
       apply N.lt_le_trans with (2 ^ 16)%N; [exact H|];
       apply N.pow_le_mono_r; lia.
Qed.

(** The eight hextets of an address written in full, joined by colons,
    are read back as the address. *)
Lemma parse_ipv6_full (hextets : list N) :
  length hextets = 8 ->
  Forall (fun h => (h < 65536)%N) hextets ->
  ipaddress.parse_ipv6 (join ":" (map ipaddress.format_hex hextets))
  = Some (fold_left (fun acc h => acc * 65536 + h)%N hextets 0%N).
Proof.
  intros Hlen Hall.
  destruct hextets as [|h1 [|h2 [|h3 [|h4 [|h5 [|h6 [|h7 [|h8 [|]]]]]]]]];
    try discriminate Hlen. clear Hlen.
  repeat match goal with
         | H : Forall _ (_ :: _) |- _ => inversion H; subst; clear H
         end.
  repeat match goal with
         | H : (?h < 65536)%N |- _ =>
             let P := fresh "P" in let D := fresh "D" in let S := fresh "S" in
             let C := fresh "C" in let E := fresh "E" in
             destruct (@hextet_facts h H) as (P & D & S & C & E); revert H
         end.
  intros L8 L7 L6 L5 L4 L3 L2 L1.
  set (parts := map ipaddress.format_hex [h1; h2; h3; h4; h5; h6; h7; h8]).
  assert (Hsplit : split ":" (join ":" parts) = parts).
  { apply (@split_join ":" parts); [discriminate|].
    unfold parts. cbn [map]. repeat constructor; assumption. }
  assert (Hslash : contains "/" (join ":" parts) = false).
  { apply contains_join; [reflexivity|].
    unfold parts. cbn [map]. repeat constructor; assumption. }
  assert (Hne : is_empty (join ":" parts) = false).
  { unfold parts. cbn [map join]. destruct (ipaddress.format_hex h1); [discriminate|reflexivity]. }
  unfold ipaddress.parse_ipv6. rewrite Hslash.
  unfold ipaddress.ipv6_int_from_string. rewrite Hne, Hsplit.
  unfold parts. cbn [map length Nat.ltb Nat.leb last].
  match goal with |- context [contains "." ?x] =>
    replace (contains "." x) with false by (symmetry; assumption) end.
  unfold ipaddress.HEXTET_COUNT, ipaddress.empty_middles.
  cbn [length Nat.ltb Nat.leb Nat.add Nat.sub seq filter nth hd last Nat.eqb negb].
  repeat match goal with
         | H : is_empty ?x = false |- context [is_empty ?x] => rewrite H
         end.
  cbn [negb]. unfold ipaddress.assemble.
  cbn [length Nat.sub firstn skipn ipaddress.parse_all].
  repeat match goal with
         | H : ipaddress.parse_hextet ?x = Some _ |- context [ipaddress.parse_hextet ?x] => rewrite H
         end.
  f_equal. unfold ipaddress.shift_in. cbn [fold_left N.of_nat N.mul].
  rewrite N.shiftl_0_r.
  rewrite !lor_shiftl_hextet by assumption. reflexivity.
Qed.

Lemma ip_address_full (hextets : list N) :
  length hextets = 8 ->
  Forall (fun h => (h < 65536)%N) hextets ->
  ipaddress.ip_address (join ":" (map ipaddress.format_hex hextets))
  = Return (ipaddress.IPv6Address
              (fold_left (fun acc h => acc * 65536 + h)%N hextets 0%N)).
Proof.
  intros Hlen Hall. unfold ipaddress.ip_address.
  rewrite (@parse_ipv6_full hextets Hlen Hall).
  assert (E4 : ipaddress.parse_ipv4 (join ":" (map ipaddress.format_hex hextets)) = None).
  { unfold ipaddress.parse_ipv4, ipaddress.ipv4_int_from_string.
    rewrite split_no_sep.
    - destruct (contains "/" _); [reflexivity|]. destruct (is_empty _); reflexivity.
    - apply contains_join; [reflexivity|].
      apply Forall_map. revert Hall. apply Forall_impl. intros h H.
      apply (@hextet_facts h H). }
  rewrite E4. reflexivity.
Qed.
End IpFacts.

(** The end-to-end scenario of the specification: "www" is rejected as
    blacklisted, "myapp" is classified under the subdomain host, "foo.org"
    meets the closed root-domain registration. *)
Lemma end_to_end_scenario :
  domain_name scenario_config "www"
  = Raise (ValueError "This subdomain is not allowed")
  /\ kind_of (ValueError "This subdomain is not allowed") = InvalidInput
  /\ domain_name scenario_config "myapp"
     = Return {| label := Some ("myapp" : str); zone := "example.com" |}
  /\ domain_name scenario_config "foo.org" = Raise (ValueError fqdn_closed_message)
  /\ kind_of (ValueError fqdn_closed_message) = RegistrationClosed.
Proof. repeat split; vm_compute; reflexivity. Qed.

(** * The claims *)

(** C1 (the code falls short of the claim).  The blacklist test of
    [domain_name] compares the name as submitted, not its lowercase form,
    while the result is lowercased afterwards: what an accepted name is
    known not to be is a blacklist entry letter for letter.  With "www" on
    the blacklist, "WWW" is accepted and classified under the label "www";
    with "co.uk" on the blacklist and root registration open, "Co.UK" is
    accepted as the zone "co.uk". *)
Theorem C1_blacklist_is_case_sensitive :
  (forall (cfg : config) (s : str),
      match domain_name cfg s with
      | Return _ => mem (without_trailing_dot s) (DOMAIN_BLACKLIST cfg) = false
      | Raise _ => True
      end)
  /\ mem (lower "WWW") (DOMAIN_BLACKLIST scenario_config) = true
  /\ domain_name scenario_config "WWW"
     = Return {| label := Some ("www" : str); zone := "example.com" |}
  /\ mem (lower "Co.UK") (DOMAIN_BLACKLIST open_config) = true
  /\ domain_name open_config "Co.UK"
     = Return {| label := None; zone := "co.uk" |}.
Proof.
  split.
  - intros cfg s.
    destruct (mem (without_trailing_dot s) (DOMAIN_BLACKLIST cfg)) eqn:Hb.
    + destruct (domain_name_blacklist_exact cfg s Hb) as [e ->]. exact I.
    + destruct (domain_name cfg s); [reflexivity | exact I].
  - repeat split; vm_compute; reflexivity.
Qed.

(** C2, as stated, fails on a name with a trailing dot: "foo.org." holds a
    dot and is accepted under open registration with the zone "foo.org",
    which is not the lowercased submitted name. *)
Lemma counterexample_C2 :
  contains "." "foo.org." = true
  /\ domain_name open_config "foo.org."
     = Return {| label := None; zone := "foo.org" |}
  /\ ("foo.org" : str) <> lower "foo.org.".
Proof. repeat split; vm_compute; solve [reflexivity | discriminate]. Qed.

(** C2, amended.  Whenever [domain_name] returns, the input is not empty
    and the result has the shape decided by the dot test on the original
    string: without a dot, the label is present and is the lowercased input
    (no upper-case letter is left in it) and the zone is the lowercased
    SUBDOMAIN_HOST; with a dot, the label is [None] and the zone is the
    lowercased submitted name, less the one trailing dot that is stripped
    when the name ends with a dot. *)
Theorem C2_classification_shape (cfg : config) (s : str) (r : classification) :
  domain_name cfg s = Return r ->
  s <> []
  /\ if contains "." s
     then label r = None
          /\ zone r = lower (without_trailing_dot s)
          /\ (last_char s <> Some "."%char -> zone r = lower s)
     else label r <> None
          /\ label r = Some (lower s)
          /\ forallb (fun c => negb (isupper c)) (lower s) = true
          /\ zone r = lower (SUBDOMAIN_HOST cfg).
Proof.
  destruct s as [|c s]; [discriminate|].
  rewrite domain_name_unfold. cbv zeta. intros H.
  split; [discriminate|].
  destruct (contains "." (c :: s)) eqn:Hdot; cbn [negb] in H.
  - repeat match type of H with
           | (if ?b then _ else _) = _ => destruct b; try discriminate H
           end.
    injection H as <-. cbn [label zone]. repeat split.
    intros Hlast. rewrite (@without_trailing_dot_other _ Hlast). reflexivity.
  - rewrite (@without_trailing_dot_no_dot _ Hdot) in H.
    repeat match type of H with
           | (if ?b then _ else _) = _ => destruct b; try discriminate H
           end.
    injection H as <-. cbn [label zone].
    repeat split; [discriminate | apply lower_no_upper].
Qed.

(** C2 at "myapp" (subdomain shape) and at "foo.org." under open
    registration (root-domain shape). *)
Lemma witness_C2 :
  (("myapp" : str) <> []
   /\ label {| label := Some ("myapp" : str); zone := "example.com" |} <> None
   /\ label {| label := Some ("myapp" : str); zone := "example.com" |}
      = Some (lower "myapp")
   /\ forallb (fun c => negb (isupper c)) (lower "myapp") = true
   /\ zone {| label := Some ("myapp" : str); zone := "example.com" |}
      = lower (SUBDOMAIN_HOST scenario_config))
  /\ (("foo.org." : str) <> []
      /\ label {| label := None; zone := "foo.org" |} = None
      /\ zone {| label := None; zone := "foo.org" |}
         = lower (without_trailing_dot "foo.org.")
      /\ (last_char "foo.org." <> Some "."%char ->
          zone {| label := None; zone := "foo.org" |} = lower "foo.org.")).
Proof.
  split.
  - exact (@C2_classification_shape scenario_config "myapp"
             {| label := Some ("myapp" : str); zone := "example.com" |} eq_refl).
  - exact (@C2_classification_shape open_config "foo.org."
             {| label := None; zone := "foo.org" |} eq_refl).
Defined.

(** C3.  A valid hostname that contains a dot and does not start with
    "www." is a root-domain submission.  Under closed registration it
    fails with the [RegistrationClosed] failure, the one that carries the
    registration-closed message; that kind is not [InvalidInput], and
    [domain_name] raises it for nothing but a valid root-domain submission
    under closed registration.  Under open registration the submission
    succeeds with the root-domain shape provided it is not on the
    blacklist (as submitted or, for a blacklist of lowercase entries, in
    lowercase). *)
Theorem C3_fqdn_registration_closed (cfg : config) (s : str) :
  is_valid_hostname s = true ->
  contains "." s = true ->
  startswith s "www." = false ->
  (truthy (FQDN_REGISTRATION_CLOSED cfg) = true ->
   exists e, domain_name cfg s = Raise e
             /\ kind_of e = RegistrationClosed
             /\ kind_of e <> InvalidInput
             /\ e = ValueError fqdn_closed_message)
  /\ (forall s' e, domain_name cfg s' = Raise e ->
                   kind_of e = RegistrationClosed ->
                   truthy (FQDN_REGISTRATION_CLOSED cfg) = true
                   /\ contains "." s' = true
                   /\ is_valid_hostname (without_trailing_dot s') = true
                   /\ startswith (without_trailing_dot s') "www." = false)
  /\ (truthy (FQDN_REGISTRATION_CLOSED cfg) = false ->
      mem s (DOMAIN_BLACKLIST cfg) = false ->
      domain_name cfg s = Return {| label := None; zone := lower s |})
  /\ (truthy (FQDN_REGISTRATION_CLOSED cfg) = false ->
      (forall b, In b (DOMAIN_BLACKLIST cfg) -> lower b = b) ->
      mem (lower s) (DOMAIN_BLACKLIST cfg) = false ->
      domain_name cfg s = Return {| label := None; zone := lower s |}).
Proof.
  intros Hvalid Hdot Hwww.
  destruct (@is_valid_hostname_last _ Hvalid) as [Hne Hlast].
  assert (Hopen : truthy (FQDN_REGISTRATION_CLOSED cfg) = false ->
                  mem s (DOMAIN_BLACKLIST cfg) = false ->
                  domain_name cfg s = Return {| label := None; zone := lower s |}).
  { intros Hc Hb. destruct s as [|c s]; [congruence|].
    rewrite domain_name_unfold. cbv zeta.
    rewrite (@without_trailing_dot_other _ Hlast), Hdot, Hvalid, Hwww, Hc, Hb.
    reflexivity. }
  split; [|split; [|split; [exact Hopen|]]].
  - intros Hc. exists (ValueError fqdn_closed_message).
    split; [|split; [reflexivity|split; [discriminate|reflexivity]]].
    destruct s as [|c s]; [congruence|].
    rewrite domain_name_unfold. cbv zeta.
    rewrite (@without_trailing_dot_other _ Hlast), Hdot, Hvalid, Hwww, Hc.
    reflexivity.
  - intros s' e. apply domain_name_closed_only.
  - intros Hc Hlow Hb. apply Hopen; [exact Hc|].
    apply mem_not_In. intros Hin. apply mem_not_In in Hb. apply Hb.
    rewrite (Hlow s Hin). exact Hin.
Qed.

(** C3 at "foo.org": closed registration, then open registration. *)
Lemma witness_C3 :
  (exists e, domain_name scenario_config "foo.org" = Raise e
             /\ kind_of e = RegistrationClosed
             /\ kind_of e <> InvalidInput
             /\ e = ValueError fqdn_closed_message)
  /\ domain_name open_config "foo.org"
     = Return {| label := None; zone := lower "foo.org" |}.
Proof.
  split.
  - apply (@C3_fqdn_registration_closed scenario_config "foo.org");
      reflexivity.
  - destruct (@C3_fqdn_registration_closed open_config "foo.org"
                eq_refl eq_refl eq_refl) as (_ & _ & Hopen & _).
    apply Hopen; reflexivity.
Defined.

(** C4, as stated, fails.  "www" has exactly MIN_SUBDOMAIN_LENGTH = 3
    characters of the label set and is rejected as blacklisted; "123" and
    "-ab" have three such characters and are rejected by the hostname
    check; "-" is shorter than the minimum and is rejected with a message
    that does not state the minimum. *)
Lemma counterexample_C4 :
  (len "www" = MIN_SUBDOMAIN_LENGTH scenario_config
   /\ forallb (label_char true) "www" = true
   /\ domain_name scenario_config "www"
      = Raise (ValueError "This subdomain is not allowed"))
  /\ (len "123" = MIN_SUBDOMAIN_LENGTH scenario_config
      /\ forallb (label_char true) "123" = true
      /\ domain_name scenario_config "123"
         = Raise (ValueError "123 is not a valid sub-domain name."))
  /\ (len "-ab" = MIN_SUBDOMAIN_LENGTH scenario_config
      /\ forallb (label_char true) "-ab" = true
      /\ domain_name scenario_config "-ab"
         = Raise (ValueError "-ab is not a valid sub-domain name."))
  /\ ((len "-" < MIN_SUBDOMAIN_LENGTH scenario_config)%Z
      /\ domain_name scenario_config "-"
         = Raise (ValueError "- is not a valid sub-domain name.")
      /\ mentions "- is not a valid sub-domain name."
                  (format_int (MIN_SUBDOMAIN_LENGTH scenario_config)) = false).
Proof. repeat split; vm_compute; reflexivity. Qed.

(** C4, amended.  In the subdomain branch (no dot in the input) every name
    shorter than MIN_SUBDOMAIN_LENGTH fails with [InvalidInput], and when
    the name passes the hostname check the message is the one that states
    the configured minimum; a name of exactly MIN_SUBDOMAIN_LENGTH
    characters that passes the hostname check and is not on the blacklist
    is accepted with the subdomain shape. *)
Theorem C4_minimum_length (cfg : config) (s : str) :
  contains "." s = false ->
  ((len s < MIN_SUBDOMAIN_LENGTH cfg)%Z ->
   exists msg, domain_name cfg s = Raise (ValueError msg)
               /\ kind_of (ValueError msg) = InvalidInput
               /\ (is_valid_hostname s = true ->
                   msg = "The subdomain must be at least " ++
                         format_int (MIN_SUBDOMAIN_LENGTH cfg) ++
                         " characters long."
                   /\ mentions msg (format_int (MIN_SUBDOMAIN_LENGTH cfg)) = true))
  /\ (len s = MIN_SUBDOMAIN_LENGTH cfg ->
      is_valid_hostname s = true ->
      mem s (DOMAIN_BLACKLIST cfg) = false ->
      domain_name cfg s = Return {| label := Some (lower s);
                                    zone := lower (SUBDOMAIN_HOST cfg) |}).
Proof.
  intros Hdot. split.
  - intros Hshort. destruct s as [|c s].
    + eexists. split; [reflexivity|]. split; [reflexivity|]. discriminate.
    + rewrite domain_name_unfold. cbv zeta.
      rewrite (@without_trailing_dot_no_dot _ Hdot), Hdot. cbn [negb].
      destruct (is_valid_hostname (c :: s)); cbn [negb].
      * apply Z.ltb_lt in Hshort. rewrite Hshort.
        eexists. split; [reflexivity|]. split; [invalid_input|].
        intros _. split; [reflexivity|]. apply mentions_app.
      * eexists. split; [reflexivity|]. split; [invalid_input|]. discriminate.
  - intros Hlen Hvalid Hb. destruct s as [|c s]; [discriminate|].
    rewrite domain_name_unfold. cbv zeta.
    rewrite (@without_trailing_dot_no_dot _ Hdot), Hdot, Hvalid, Hb. cbn [negb].
    rewrite Hlen, Z.ltb_irrefl. reflexivity.
Qed.

(** C4 at "ab" (shorter than the minimum of 3) and at "abc" (exactly 3). *)
Lemma witness_C4 :
  (exists msg,
      domain_name scenario_config "ab" = Raise (ValueError msg)
      /\ kind_of (ValueError msg) = InvalidInput
      /\ (is_valid_hostname "ab" = true ->
          msg = "The subdomain must be at least " ++
                format_int (MIN_SUBDOMAIN_LENGTH scenario_config) ++
                " characters long."
          /\ mentions msg (format_int (MIN_SUBDOMAIN_LENGTH scenario_config))
             = true))
  /\ domain_name scenario_config "abc"
     = Return {| label := Some (lower "abc");
                 zone := lower (SUBDOMAIN_HOST scenario_config) |}.
Proof.
  split.
  - apply (@C4_minimum_length scenario_config "ab"); reflexivity.
  - apply (@C4_minimum_length scenario_config "abc"); reflexivity.
Defined.

(** C5 (the code falls short of the claim).  The pattern of
    [is_valid_label] ends in [$], which also matches before a final line
    feed.  For every text the function decides the label rule of the claim
    (1 to 63 characters of the set, no hyphen first or last, either letter
    case) on the text without its final line feed; so "a" followed by a
    line feed, which has a character outside the set, is accepted in both
    modes. *)
Theorem C5_is_valid_label_final_newline :
  (forall (s : str) (hostname : bool),
      is_valid_label s hostname = valid_label hostname (chomp s))
  /\ is_valid_label ("a" ++ [newline]) false = true
  /\ is_valid_label ("a" ++ [newline]) true = true
  /\ forallb (label_char false) ("a" ++ [newline]) = false
  /\ valid_label false ("a" ++ [newline]) = false
  /\ valid_label true ("a" ++ [newline]) = false.
Proof.
  split; [exact is_valid_label_chomp|].
  repeat split; vm_compute; reflexivity.
Qed.

(** On every text that does not end with a line feed, [is_valid_label]
    decides exactly the label rule of the specification. *)
Lemma is_valid_label_no_final_newline (s : str) (hostname : bool) :
  last_char s <> Some newline ->
  is_valid_label s hostname = valid_label hostname s.
Proof.
  intros H. rewrite is_valid_label_chomp.
  destruct (chomp_cases s) as [C|[C _]]; [|rewrite C; reflexivity].
  exfalso. apply H. rewrite C. apply last_char_app.
Qed.

(** C6 (the code falls short of the claim).  The digits-and-dots pattern
    of [is_valid_hostname] ends in [$] as well, so for every text the
    numeric test is made on the text without its final line feed; the
    length test and the test of the segments are as claimed.  "1" followed
    by a line feed does not consist of digits and dots only and its one
    segment passes [is_valid_label] in hostname mode, yet the hostname is
    rejected as numeric; and "a" followed by a line feed is accepted
    although its one segment breaks the label rule of the specification.
    The two examples of the claim hold. *)
Theorem C6_is_valid_hostname_final_newline :
  (forall s : str,
      is_valid_hostname s =
      if 255 <? length s then false
      else if negb (is_empty (chomp s)) && digits_and_dots (chomp s)
           then false
      else forallb (fun x => is_valid_label x true) (split "." s))
  /\ is_valid_hostname ("1" ++ [newline]) = false
  /\ (255 <? length ("1" ++ [newline])) = false
  /\ digits_and_dots ("1" ++ [newline]) = false
  /\ forallb (fun x => is_valid_label x true) (split "." ("1" ++ [newline])) = true
  /\ valid_hostname ("1" ++ [newline]) = true
  /\ is_valid_hostname "192.168.1.1" = false
  /\ is_valid_hostname "my-site.example.com" = true
  /\ is_valid_hostname ("a" ++ [newline]) = true
  /\ forallb (valid_label true) (split "." ("a" ++ [newline])) = false.
Proof.
  split.
  - intros s. unfold is_valid_hostname. rewrite numeric_pattern_match.
    reflexivity.
  - repeat split; vm_compute; reflexivity.
Qed.

(** On every text that does not end with a line feed, [is_valid_hostname]
    is the hostname rule of the specification. *)
Lemma is_valid_hostname_no_final_newline (s : str) :
  last_char s <> Some newline ->
  is_valid_hostname s = valid_hostname s.
Proof.
  intros H. unfold is_valid_hostname, valid_hostname.
  rewrite numeric_pattern_match.
  destruct (chomp_cases s) as [C|[C _]].
  - exfalso. apply H. rewrite C. apply last_char_app.
  - rewrite C. destruct s as [|c s]; [reflexivity|].
    reflexivity.
Qed.

(** C7 (the code falls short of the claim).  The dot of the onion pattern
    is not escaped and the pattern ends in [$]: the function accepts
    exactly the texts that, without their final line feed, are 16
    lowercase alphanumerics, any one character but a line feed, and the
    word "onion".  So "abcdefghij123456xonion" is accepted, and so is a
    well-formed address followed by a line feed.  The examples of the
    claim hold. *)
Theorem C7_is_onion_address_unescaped_dot :
  (forall s : str,
      is_onion_address s = true <->
      exists p c, chomp s = p ++ c :: "onion"
                  /\ length p = 16 /\ forallb lower_alnum p = true
                  /\ c <> newline)
  /\ is_onion_address "abcdefghij123456xonion" = true
  /\ onion_address "abcdefghij123456xonion" = false
  /\ is_onion_address ("abcdefghij123456.onion" ++ [newline]) = true
  /\ onion_address ("abcdefghij123456.onion" ++ [newline]) = false
  /\ is_onion_address "abcdefghij123456.onion" = true
  /\ is_onion_address "ABCDEFGHIJ123456.onion" = false
  /\ is_onion_address
       "vww6ybal4bd7szmgncyruucpgfkqahzddi37ktceo3ah7ngmcopnpyyd.onion" = false.
Proof.
  split; [exact is_onion_address_iff|].
  repeat split; vm_compute; reflexivity.
Qed.

(** Every address of the specified form is accepted. *)
Lemma onion_address_accepted (s : str) :
  onion_address s = true -> is_onion_address s = true.
Proof.
  unfold onion_address. rewrite !andb_true_iff, Nat.eqb_eq, str_eqb_eq.
  intros [[Hlen Hall] Htail]. apply is_onion_address_iff.
  exists (firstn 16 s), "."%char.
  assert (Hs : s = firstn 16 s ++ "."%char :: "onion").
  { rewrite <- (firstn_skipn 16 s) at 1. rewrite Htail. reflexivity. }
  repeat split.
  - rewrite Hs at 1. change (firstn 16 s ++ "."%char :: "onion")
      with (firstn 16 s ++ ("."%char :: "onio") ++ ["n"%char]).
    rewrite app_assoc, chomp_app_other by discriminate.
    rewrite <- app_assoc. reflexivity.
  - rewrite length_firstn. lia.
  - exact Hall.
  - discriminate.
Qed.

(** C8.  [ip_address] fails with the parser's [InvalidInput] failure when
    the text is neither an IPv4 nor an IPv6 address, fails with
    [InvalidInput] and the message "Only public IP addresses are valid"
    when the parsed address is private, and returns the parsed address
    otherwise.  What the parser does is pinned down on both sides: a text
    with no dot and no colon is no address; the dotted form of every IPv4
    address is read back as that address, so that every address of
    10.0.0.0/8, 127.0.0.0/8, 172.16.0.0/12 and 192.168.0.0/16 is rejected
    as private and every address of 8.0.0.0/8 is returned; eight hextets
    written in full are read back as the IPv6 address they spell.
    10.0.0.5, 127.0.0.1, fe80::1 and ::1 are rejected as private, 8.8.8.8
    and 2001:4860:4860::8888 are returned, and "256.1.1.1", "1.2.3",
    "8.8.8.8/32", "fe80::1::2", "example.com" and the empty text are
    rejected as unparsable. *)
Theorem C8_ip_address :
  (forall s : str,
      match ipaddress.ip_address s with
      | Raise e =>
          ip_address s = Raise e /\ kind_of e = InvalidInput
      | Return ip =>
          if ipaddress.is_private ip
          then ip_address s = Raise (ValueError "Only public IP addresses are valid")
          else ip_address s = Return ip
      end)
  /\ kind_of (ValueError "Only public IP addresses are valid") = InvalidInput
  /\ lower "Only public IP addresses are valid"
     = "only public ip addresses are valid"
  /\ (forall s : str,
         contains "." s = false -> contains ":" s = false ->
         ip_address s
         = Raise (ValueError
                    (repr s ++ " does not appear to be an IPv4 or IPv6 address")))
  /\ (forall n : N,
         (n < 2 ^ 32)%N ->
         ipaddress.ip_address (ipaddress.string_from_ip_int n)
         = Return (ipaddress.IPv4Address n)
         /\ ip_address (ipaddress.string_from_ip_int n)
            = if ipaddress.is_private (ipaddress.IPv4Address n)
              then Raise (ValueError "Only public IP addresses are valid")
              else Return (ipaddress.IPv4Address n))
  /\ (forall n : N,
         (0x0A000000 <= n <= 0x0AFFFFFF \/ 0x7F000000 <= n <= 0x7FFFFFFF
          \/ 0xAC100000 <= n <= 0xAC1FFFFF \/ 0xC0A80000 <= n <= 0xC0A8FFFF)%N ->
         ip_address (ipaddress.string_from_ip_int n)
         = Raise (ValueError "Only public IP addresses are valid"))
  /\ (forall n : N,
         (0x08000000 <= n <= 0x08FFFFFF)%N ->
         ip_address (ipaddress.string_from_ip_int n)
         = Return (ipaddress.IPv4Address n))
  /\ (forall hextets : list N,
         length hextets = 8 ->
         Forall (fun h => (h < 65536)%N) hextets ->
         ipaddress.ip_address (join ":" (map ipaddress.format_hex hextets))
         = Return (ipaddress.IPv6Address
                     (fold_left (fun acc h => acc * 65536 + h)%N hextets 0%N)))
  /\ ip_address "10.0.0.5" = Raise (ValueError "Only public IP addresses are valid")
  /\ ip_address "127.0.0.1" = Raise (ValueError "Only public IP addresses are valid")
  /\ ip_address "fe80::1" = Raise (ValueError "Only public IP addresses are valid")
  /\ ip_address "::1" = Raise (ValueError "Only public IP addresses are valid")
  /\ ip_address "8.8.8.8" = Return (ipaddress.IPv4Address 0x08080808)
  /\ ip_address "2001:4860:4860::8888"
     = Return (ipaddress.IPv6Address 0x20014860486000000000000000008888)
  /\ ip_address "256.1.1.1"
     = Raise (ValueError "'256.1.1.1' does not appear to be an IPv4 or IPv6 address")
  /\ ip_address "1.2.3"
     = Raise (ValueError "'1.2.3' does not appear to be an IPv4 or IPv6 address")
  /\ ip_address "8.8.8.8/32"
     = Raise (ValueError "'8.8.8.8/32' does not appear to be an IPv4 or IPv6 address")
  /\ ip_address "fe80::1::2"
     = Raise (ValueError "'fe80::1::2' does not appear to be an IPv4 or IPv6 address")
  /\ ip_address "example.com"
     = Raise (ValueError "'example.com' does not appear to be an IPv4 or IPv6 address")
  /\ ip_address []
     = Raise (ValueError "'' does not appear to be an IPv4 or IPv6 address").
Proof.
  assert (W : forall s : str,
             match ipaddress.ip_address s with
             | Raise e => ip_address s = Raise e /\ kind_of e = InvalidInput
             | Return ip =>
                 if ipaddress.is_private ip
                 then ip_address s
                      = Raise (ValueError "Only public IP addresses are valid")
                 else ip_address s = Return ip
             end).
  { intros s. unfold ip_address, ipaddress.ip_address.
    destruct (ipaddress.parse_ipv4 s) as [ip|].
    - destruct (ipaddress.is_private (ipaddress.IPv4Address ip)); reflexivity.
    - destruct (ipaddress.parse_ipv6 s) as [ip|].
      + destruct (ipaddress.is_private (ipaddress.IPv6Address ip)); reflexivity.
      + split; [reflexivity | invalid_input]. }
  assert (V4 : forall n : N,
             (n < 2 ^ 32)%N ->
             ip_address (ipaddress.string_from_ip_int n)
             = if ipaddress.is_private (ipaddress.IPv4Address n)
               then Raise (ValueError "Only public IP addresses are valid")
               else Return (ipaddress.IPv4Address n)).
  { intros n Hn. unfold ip_address. rewrite (@ip_address_string n Hn).
    reflexivity. }
  split; [exact W|]. split; [reflexivity|]. split; [reflexivity|].
  split.
  { intros s Hd Hc. unfold ip_address.
    rewrite (@ip_address_no_separator s Hd Hc). reflexivity. }
  split.
  { intros n Hn. split; [apply ip_address_string; exact Hn | apply V4; exact Hn]. }
  split.
  { intros n Hn. rewrite V4, (@is_private_blocks n Hn); [reflexivity|].
    change (2 ^ 32)%N with 4294967296%N. lia. }
  split.
  { intros n Hn. rewrite V4, (@is_private_8 n Hn); [reflexivity|].
    change (2 ^ 32)%N with 4294967296%N. lia. }
  split; [exact ip_address_full|].
  repeat split; vm_compute; reflexivity.
Qed.

(** C8 at "localhost", at 8.8.8.8 and 192.168.1.1 given as numbers, and at
    2001:db8:0:0:0:0:0:1 given by its hextets. *)
Lemma witness_C8 :
  ip_address "localhost"
  = Raise (ValueError
             (repr "localhost" ++ " does not appear to be an IPv4 or IPv6 address"))
  /\ ip_address (ipaddress.string_from_ip_int 0x08080808)
     = Return (ipaddress.IPv4Address 0x08080808)
  /\ ip_address (ipaddress.string_from_ip_int 0xC0A80101)
     = Raise (ValueError "Only public IP addresses are valid")
  /\ ipaddress.ip_address
       (join ":" (map ipaddress.format_hex [0x2001; 0xdb8; 0; 0; 0; 0; 0; 1]%N))
     = Return (ipaddress.IPv6Address
                 (fold_left (fun acc h => acc * 65536 + h)%N
                            [0x2001; 0xdb8; 0; 0; 0; 0; 0; 1]%N 0%N)).
Proof.
  destruct C8_ip_address as (_ & _ & _ & Hsep & _ & Hpriv & Hpub & Hfull & _).
  split; [apply Hsep; reflexivity|].
  split; [apply Hpub; split; apply N.leb_le; reflexivity|].
  split; [apply Hpriv; right; right; right; split; apply N.leb_le; reflexivity|].
  apply Hfull; [reflexivity|].
  repeat constructor.
Defined.

(** C9.  [allowed_dns_record_type] normalises its input by stripping the
    run of whitespace at each end and upper-casing (no space is left at
    either end; no letter a-z is left anywhere, and every character of
    the alphabet that is left is its own capital); it returns the
    normalised text when that is one of ALLOWED_DNS_RECORD_TYPES and
    otherwise fails with [InvalidInput] and a message that lists the
    allowed types joined by ", ".  With the types A, AAAA, CNAME, " a "
    gives "A" and "FOO" fails listing "A, AAAA, CNAME"; "a" between a
    no-break space and a next-line character gives "A" as well. *)
Theorem C9_allowed_dns_record_type (cfg : config) (s : str) :
  let normalized := upper (strip s) in
  let message :=
    normalized ++ wide " is not an allowed DNS record type. Only types " ++
    join (wide ", ") (ALLOWED_DNS_RECORD_TYPES cfg) ++ wide " are allowed" in
  (if text_mem normalized (ALLOWED_DNS_RECORD_TYPES cfg)
   then allowed_dns_record_type cfg s = Return normalized
        /\ In normalized (ALLOWED_DNS_RECORD_TYPES cfg)
   else allowed_dns_record_type cfg s = Raise (ValueError message)
        /\ kind_of_text (ValueError message) = InvalidInput
        /\ (exists before after,
               message = before ++ join (wide ", ") (ALLOWED_DNS_RECORD_TYPES cfg)
                                ++ after)
        /\ ~ In normalized (ALLOWED_DNS_RECORD_TYPES cfg))
  /\ (exists l r, s = l ++ strip s ++ r
                  /\ forallb isspace l = true /\ forallb isspace r = true
                  /\ no_leading_space (strip s)
                  /\ no_leading_space (rev (strip s)))
  /\ (forall c, In (ord c) normalized ->
                islower c = false /\ upper_char c = [ord c])
  /\ allowed_dns_record_type scenario_config " a " = Return (wide "A")
  /\ allowed_dns_record_type scenario_config "FOO"
     = Raise (ValueError
                (wide "FOO is not an allowed DNS record type. Only types A, AAAA, CNAME are allowed"))
  /\ allowed_dns_record_type scenario_config ("160"%char :: "a" ++ ["133"%char])
     = Return (wide "A")
  /\ upper ["181"%char; "223"%char; "255"%char] = [924; 83; 83; 376]%N.
Proof.
  cbv zeta. split; [|split; [apply strip_spec|split; [apply upper_fixed|]];
                     repeat split; vm_compute; reflexivity].
  unfold allowed_dns_record_type.
  destruct (text_mem (upper (strip s)) (ALLOWED_DNS_RECORD_TYPES cfg)) eqn:E;
    cbn [negb].
  - split; [reflexivity | apply text_mem_In; exact E].
  - split; [reflexivity|]. split.
    + rewrite !app_assoc. apply kind_of_text_suffix;
        [vm_compute; lia | vm_compute; discriminate].
    + split; [|apply text_mem_not_In; exact E].
      eexists _, _. rewrite app_assoc. reflexivity.
Qed.

(** C9 at "cname" between spaces, which is allowed, and at "mx", which
    is not. *)
Lemma witness_C9 :
  (allowed_dns_record_type scenario_config " cname " = Return (wide "CNAME")
   /\ In (wide "CNAME") (ALLOWED_DNS_RECORD_TYPES scenario_config))
  /\ allowed_dns_record_type scenario_config "mx"
     = Raise (ValueError
                (wide "MX is not an allowed DNS record type. Only types A, AAAA, CNAME are allowed")).
Proof.
  split.
  - exact (proj1 (C9_allowed_dns_record_type scenario_config " cname ")).
  - exact (proj1 (proj1 (C9_allowed_dns_record_type scenario_config "mx"))).
Defined.

(** C10.  For every name [s] without a dot, [s] followed by one dot is
    rejected by [domain_name] with [InvalidInput]: the dot sends it to the
    root-domain branch, where the stripped name has no dot left.  This
    holds even where [s] alone is accepted, as "myapp" is. *)
Theorem C10_bare_label_trailing_dot (cfg : config) (s : str) :
  contains "." s = false ->
  domain_name cfg (s ++ ".")
  = Raise (ValueError (s ++ " is not a valid domain name"))
  /\ kind_of (ValueError (s ++ " is not a valid domain name")) = InvalidInput
  /\ contains "." (s ++ ".") = true
  /\ without_trailing_dot (s ++ ".") = s
  /\ domain_name scenario_config "myapp"
     = Return {| label := Some ("myapp" : str); zone := "example.com" |}.
Proof.
  intros Hdot. repeat split.
  - destruct (s ++ ".") as [|c t] eqn:E; [destruct s; discriminate|].
    rewrite domain_name_unfold. cbv zeta. rewrite <- E.
    rewrite without_trailing_dot_app, contains_app, Hdot. cbn [orb negb contains existsb].
    rewrite orb_true_r. reflexivity.
  - invalid_input.
  - rewrite contains_app. apply orb_true_r.
  - apply without_trailing_dot_app.
Qed.

(** C10 at "myapp". *)
Lemma witness_C10 :
  domain_name scenario_config ("myapp" ++ ".")
  = Raise (ValueError ("myapp" ++ " is not a valid domain name")).
Proof.
  apply (@C10_bare_label_trailing_dot scenario_config "myapp"). reflexivity.
Defined.

(** * Further properties of the validators *)

(** ** Letter case and the syntax checks *)

Section Lists.

Lemma last_char_map (f : ascii -> ascii) (s : str) :
  last_char (map f s) = option_map f (last_char s).
Proof.
  induction s as [|c s IH]; [reflexivity|].
  destruct s as [|d s]; [reflexivity|]. exact IH.
Qed.

Lemma drop_last_map (f : ascii -> ascii) (s : str) :
  drop_last (map f s) = map f (drop_last s).
Proof.
  unfold drop_last. induction s as [|c s IH]; [reflexivity|].
  destruct s as [|d s]; [reflexivity|].
  change (c :: d :: s) with (c :: (d :: s)).
  cbn [map removelast] in *. rewrite IH. reflexivity.
Qed.

Lemma forallb_map {A B} (f : A -> B) (p : B -> bool) (l : list A) :
  forallb p (map f l) = forallb (fun x => p (f x)) l.
Proof. induction l as [|x l IH]; simpl; [reflexivity | rewrite IH; reflexivity]. Qed.

Lemma existsb_map {A B} (f : A -> B) (p : B -> bool) (l : list A) :
  existsb p (map f l) = existsb (fun x => p (f x)) l.
Proof. induction l as [|x l IH]; simpl; [reflexivity | rewrite IH; reflexivity]. Qed.

Lemma existsb_eq {A} (f g : A -> bool) (l : list A) :
  (forall x, f x = g x) -> existsb f l = existsb g l.
Proof.
  intros H. induction l as [|x l IH]; simpl; [reflexivity|].
  rewrite H, IH. reflexivity.
Qed.

End Lists.

(** A change of letter case [f], character by character, that leaves
    alone what the syntax checks look at. *)
Section CaseMap.

Variable f : ascii -> ascii.
Hypothesis f_newline : forall c, Ascii.eqb (f c) newline = Ascii.eqb c newline.
Hypothesis f_hyphen : forall c, Ascii.eqb (f c) "-" = Ascii.eqb c "-".
Hypothesis f_dot : forall c, Ascii.eqb (f c) "." = Ascii.eqb c ".".
Hypothesis f_label : forall h c, label_char h (f c) = label_char h c.
Hypothesis f_digit : forall c, digit_or_dot (f c) = digit_or_dot c.

Lemma chomp_alt (s : str) :
  chomp s = match last_char s with
            | Some c => if Ascii.eqb c newline then drop_last s else s
            | None => s
            end.
Proof.
  unfold chomp. destruct (last_char s) as [c|]; [|reflexivity].
  each_char c; reflexivity.
Qed.

Lemma chomp_map (s : str) : chomp (map f s) = map f (chomp s).
Proof.
  rewrite !chomp_alt, last_char_map.
  destruct (last_char s) as [c|]; [|reflexivity]. cbn [option_map].
  rewrite f_newline.
  destruct (Ascii.eqb c newline); [apply drop_last_map | reflexivity].
Qed.

Lemma startswith_hyphen (s : str) :
  startswith s "-" = match s with c :: _ => Ascii.eqb c "-" | [] => false end.
Proof.
  destruct s as [|c s]; [reflexivity|].
  cbn [startswith list_ascii_of_string].
  rewrite Ascii.eqb_sym. destruct s; apply andb_true_r.
Qed.

Lemma valid_label_map (h : bool) (t : str) :
  valid_label h (map f t) = valid_label h t.
Proof.
  unfold valid_label. rewrite !startswith_hyphen.
  rewrite length_map, forallb_map, last_char_map.
  rewrite (forallb_eq _ (label_char h) t (f_label h)).
  f_equal; [f_equal|].
  - destruct t as [|c t]; [reflexivity|]. cbn [map]. rewrite f_hyphen.
    reflexivity.
  - destruct (last_char t) as [c|]; [|reflexivity]. cbn [option_map].
    rewrite f_hyphen. reflexivity.
Qed.

Lemma is_valid_label_map (s : str) (hostname : bool) :
  is_valid_label (map f s) hostname = is_valid_label s hostname.
Proof.
  rewrite !is_valid_label_chomp, chomp_map. apply valid_label_map.
Qed.

Lemma split_map (s : str) :
  split "." (map f s) = map (map f) (split "." s).
Proof.
  induction s as [|c s IH]; [reflexivity|].
  cbn [map split]. rewrite f_dot, IH.
  destruct (Ascii.eqb c "."); [reflexivity|].
  pose proof (split_not_nil "." s) as NE.
  destruct (split "." s); [congruence | reflexivity].
Qed.

Lemma contains_dot_map (s : str) : contains "." (map f s) = contains "." s.
Proof.
  unfold contains. rewrite existsb_map. apply existsb_eq.
  intros c. rewrite Ascii.eqb_sym, f_dot. apply Ascii.eqb_sym.
Qed.

Lemma without_trailing_dot_alt (s : str) :
  without_trailing_dot s
  = match last_char s with
    | Some c => if Ascii.eqb c "." then drop_last s else s
    | None => s
    end.
Proof.
  unfold without_trailing_dot. destruct (last_char s) as [c|]; [|reflexivity].
  each_char c; reflexivity.
Qed.

Lemma without_trailing_dot_map (s : str) :
  without_trailing_dot (map f s) = map f (without_trailing_dot s).
Proof.
  rewrite !without_trailing_dot_alt, last_char_map.
  destruct (last_char s) as [c|]; [|reflexivity]. cbn [option_map].
  rewrite f_dot.
  destruct (Ascii.eqb c "."); [apply drop_last_map | reflexivity].
Qed.

Lemma is_valid_hostname_map (s : str) :
  is_valid_hostname (map f s) = is_valid_hostname s.
Proof.
  unfold is_valid_hostname. rewrite !numeric_pattern_match.
  rewrite chomp_map, split_map, forallb_map, length_map.
  replace (is_empty (map f (chomp s))) with (is_empty (chomp s))
    by (destruct (chomp s); reflexivity).
  replace (digits_and_dots (map f (chomp s))) with (digits_and_dots (chomp s)).
  2:{ unfold digits_and_dots. rewrite forallb_map.
      apply forallb_eq. intros c. symmetry. apply f_digit. }
  rewrite (forallb_eq (fun x => is_valid_label (map f x) true)
             (fun x => is_valid_label x true) _
             (fun x => is_valid_label_map x true)).
  reflexivity.
Qed.

End CaseMap.

Section LowerUpper.

Lemma lower_char_newline (c : ascii) :
  Ascii.eqb (lower_char c) newline = Ascii.eqb c newline.
Proof. each_char c; reflexivity. Qed.
Lemma lower_char_hyphen (c : ascii) :
  Ascii.eqb (lower_char c) "-" = Ascii.eqb c "-".
Proof. each_char c; reflexivity. Qed.
Lemma lower_char_dot (c : ascii) :
  Ascii.eqb (lower_char c) "." = Ascii.eqb c ".".
Proof. each_char c; reflexivity. Qed.
Lemma label_char_lower (h : bool) (c : ascii) :
  label_char h (lower_char c) = label_char h c.
Proof. destruct h; each_char c; reflexivity. Qed.
Lemma digit_or_dot_lower (c : ascii) :
  digit_or_dot (lower_char c) = digit_or_dot c.
Proof. each_char c; reflexivity. Qed.

Lemma chomp_lower (s : str) : chomp (lower s) = lower (chomp s).
Proof. apply chomp_map, lower_char_newline. Qed.

Lemma without_trailing_dot_lower (s : str) :
  without_trailing_dot (lower s) = lower (without_trailing_dot s).
Proof. apply without_trailing_dot_map, lower_char_dot. Qed.

Lemma contains_dot_lower (s : str) : contains "." (lower s) = contains "." s.
Proof. apply contains_dot_map, lower_char_dot. Qed.

Lemma is_valid_hostname_lower (s : str) :
  is_valid_hostname (lower s) = is_valid_hostname s.
Proof.
  apply is_valid_hostname_map;
    auto using lower_char_newline, lower_char_hyphen, lower_char_dot,
               label_char_lower, digit_or_dot_lower.
Qed.

End LowerUpper.

(** The capital form of an ASCII text has the lowercase form of the
    text. *)
Lemma lower_upper_isascii (s u : str) :
  isascii s = true -> upper s = wide u -> lower u = lower s.
Proof.
  intros Hs E. rewrite (upper_isascii s Hs) in E.
  apply wide_inj in E. subst u. unfold lower. rewrite map_map.
  revert Hs. induction s as [|c s IH]; [reflexivity|].
  cbn [isascii forallb map]. intros H. apply andb_true_iff in H as [Hc Hs].
  f_equal; [|exact (IH Hs)].
  clear - Hc. revert Hc. each_char c; intros Hc; try discriminate Hc; reflexivity.
Qed.

(** X1.  On ASCII text the syntax check of a label does not depend on
    letter case: [is_valid_label] gives the same answer on a text, on its
    lowercase form, on its uppercase form, and on every ASCII text that
    has the same lowercase form, in both modes. *)
Theorem X1_is_valid_label_ignores_case (s : str) (hostname : bool) :
  isascii s = true ->
  is_valid_label (lower s) hostname = is_valid_label s hostname
  /\ (forall u, upper s = wide u ->
                is_valid_label u hostname = is_valid_label s hostname)
  /\ (forall t, isascii t = true -> lower t = lower s ->
                is_valid_label t hostname = is_valid_label s hostname).
Proof.
  intros Hs.
  assert (L : forall x, is_valid_label (lower x) hostname
                        = is_valid_label x hostname).
  { intros x. apply is_valid_label_map;
      auto using lower_char_newline, lower_char_hyphen, label_char_lower. }
  split; [apply L|]. split.
  - intros u E. rewrite <- (L u), (lower_upper_isascii s u Hs E). apply L.
  - intros t _ E. rewrite <- (L t), E. apply L.
Qed.

(** X1 at "My-App_1", with "MY-APP_1" and "my-app_1". *)
Lemma witness_X1 :
  is_valid_label (lower "My-App_1") false = is_valid_label "My-App_1" false
  /\ is_valid_label "MY-APP_1" false = is_valid_label "My-App_1" false
  /\ is_valid_label "mY-aPP_1" false = is_valid_label "My-App_1" false.
Proof.
  destruct (@X1_is_valid_label_ignores_case "My-App_1" false eq_refl)
    as (H1 & H2 & H3).
  split; [exact H1|]. split; [apply H2 | apply H3]; reflexivity.
Defined.

(** X2.  Nor does, on ASCII text, the syntax check of a hostname:
    [is_valid_hostname] gives the same answer on a text, on its lowercase
    form, on its uppercase form, and on every ASCII text that has the same
    lowercase form. *)
Theorem X2_is_valid_hostname_ignores_case (s : str) :
  isascii s = true ->
  is_valid_hostname (lower s) = is_valid_hostname s
  /\ (forall u, upper s = wide u -> is_valid_hostname u = is_valid_hostname s)
  /\ (forall t, isascii t = true -> lower t = lower s ->
                is_valid_hostname t = is_valid_hostname s).
Proof.
  intros Hs. split; [apply is_valid_hostname_lower|]. split.
  - intros u E. rewrite <- (is_valid_hostname_lower u),
      (lower_upper_isascii s u Hs E).
    apply is_valid_hostname_lower.
  - intros t _ E. rewrite <- (is_valid_hostname_lower t), E.
    apply is_valid_hostname_lower.
Qed.

(** X2 at "My-Site.Example.com", with its uppercase form and another
    spelling. *)
Lemma witness_X2 :
  is_valid_hostname (lower "My-Site.Example.com")
  = is_valid_hostname "My-Site.Example.com"
  /\ is_valid_hostname "MY-SITE.EXAMPLE.COM"
     = is_valid_hostname "My-Site.Example.com"
  /\ is_valid_hostname "my-site.EXAMPLE.com"
     = is_valid_hostname "My-Site.Example.com".
Proof.
  destruct (@X2_is_valid_hostname_ignores_case "My-Site.Example.com" eq_refl)
    as (H1 & H2 & H3).
  split; [exact H1|]. split; [apply H2 | apply H3]; reflexivity.
Defined.

(** ** Labels and hostnames *)

Section Labels.

Lemma label_char_hostname (c : ascii) :
  label_char true c = label_char false c && negb (Ascii.eqb "_" c).
Proof. each_char c; reflexivity. Qed.

Lemma forallb_label_char_hostname (t : str) :
  forallb (label_char true) t
  = forallb (label_char false) t && negb (contains "_" t).
Proof.
  induction t as [|c t IH]; [reflexivity|].
  cbn [forallb contains existsb]. fold (contains "_" t).
  rewrite IH, label_char_hostname, negb_orb.
  destruct (label_char false c), (Ascii.eqb "_" c),
    (forallb (label_char false) t), (contains "_" t); reflexivity.
Qed.

Lemma contains_chomp (c : ascii) (s : str) :
  c <> newline -> contains c (chomp s) = contains c s.
Proof.
  intros Hc. destruct (chomp_cases s) as [C|[C _]]; [|rewrite C; reflexivity].
  rewrite C at 2. rewrite contains_app. cbn [contains existsb].
  apply Ascii.eqb_neq in Hc. rewrite Hc. cbn. rewrite orb_false_r. reflexivity.
Qed.

(** [s.split(sep)] cuts [s] at the separators and nowhere else: a property
    of the characters that the separator has holds of the text when it
    holds of the pieces. *)
Lemma forallb_split (p : ascii -> bool) (sep : ascii) (s : str) :
  p sep = true ->
  forallb p s = forallb (forallb p) (split sep s).
Proof.
  intros Hsep. induction s as [|c s IH]; [reflexivity|].
  cbn [forallb split]. destruct (Ascii.eqb_spec c sep) as [->|Hc].
  - rewrite Hsep. cbn [forallb andb]. exact IH.
  - pose proof (split_not_nil sep s) as NE.
    destruct (split sep s) as [|seg rest]; [congruence|].
    cbn [forallb] in *. rewrite IH. apply andb_assoc.
Qed.


Lemma split_length (sep : ascii) (s : str) :
  contains sep s = true -> 2 <= length (split sep s).
Proof.
  induction s as [|c s IH]; [discriminate|].
  cbn [contains existsb split]. fold (contains sep s).
  rewrite (Ascii.eqb_sym sep c).
  pose proof (split_not_nil sep s) as NE.
  destruct (Ascii.eqb c sep); cbn [orb].
  - intros _. destruct (split sep s); [congruence | simpl; lia].
  - intros H. specialize (IH H).
    destruct (split sep s); [congruence | exact IH].
Qed.

Lemma forallb_chomp (p : ascii -> bool) (s : str) :
  p newline = true -> forallb p (chomp s) = true -> forallb p s = true.
Proof.
  intros Hnl H. destruct (chomp_cases s) as [C|[C _]]; [|rewrite <- C; exact H].
  rewrite C, forallb_app, H. cbn. rewrite Hnl. reflexivity.
Qed.

Lemma digits_and_dots_chomp (s : str) :
  digits_and_dots s = true -> chomp s = s.
Proof.
  intros H. destruct (chomp_cases s) as [C|[C _]]; [|exact C].
  exfalso. rewrite C in H. unfold digits_and_dots in H.
  rewrite forallb_app in H. apply andb_true_iff in H as [_ H].
  discriminate.
Qed.

Lemma digits_and_dots_invalid (s : str) :
  digits_and_dots s = true -> is_valid_hostname s = false.
Proof.
  intros H. unfold is_valid_hostname. rewrite numeric_pattern_match.
  rewrite (digits_and_dots_chomp _ H), H.
  destruct (255 <? length s); [reflexivity|].
  destruct s as [|c s]; reflexivity.
Qed.

End Labels.

(** X3.  The two modes of [is_valid_label] differ by the underscore and by
    nothing else: a text is a label in hostname mode exactly when it is a
    label in the default mode and holds no underscore. *)
Theorem X3_hostname_mode_excludes_underscore (s : str) :
  is_valid_label s true
  = is_valid_label s false && negb (contains "_" s).
Proof.
  rewrite !is_valid_label_chomp. unfold valid_label.
  rewrite forallb_label_char_hostname.
  rewrite (@contains_chomp "_" s) by discriminate.
  destruct (1 <=? length (chomp s)), (length (chomp s) <=? 63),
    (forallb (label_char false) (chomp s)), (contains "_" s),
    (startswith (chomp s) "-"),
    (match last_char (chomp s) with
     | Some c => Ascii.eqb c "-" | None => false end); reflexivity.
Qed.

(** The shape of what [is_valid_hostname] accepts. *)
Lemma valid_hostname_structure (s : str) :
  is_valid_hostname s = true ->
  1 <= length s <= 255
  /\ forallb (fun c => label_char true c || Ascii.eqb c "." || Ascii.eqb c newline) s
     = true
  /\ digits_and_dots s = false
  /\ Forall (fun seg => 1 <= length (chomp seg) <= 63) (split "." s).
Proof.
  intros H.
  destruct (is_valid_hostname_last _ H) as [Hne _].
  destruct (digits_and_dots s) eqn:Hd;
    [rewrite (digits_and_dots_invalid _ Hd) in H; discriminate|].
  unfold is_valid_hostname in H.
  destruct (255 <? length s) eqn:Hlen; [discriminate|].
  apply Nat.ltb_ge in Hlen.
  destruct (is_match false numeric_pattern s); [discriminate|].
  rewrite forallb_forall in H.
  repeat split.
  - destruct s; [congruence | simpl; lia].
  - exact Hlen.
  - rewrite (@forallb_split _ "." s) by reflexivity.
    apply forallb_forall. intros seg Hseg. specialize (H seg Hseg).
    rewrite is_valid_label_chomp in H. unfold valid_label in H.
    rewrite !andb_true_iff in H. destruct H as [[[_ Hall] _] _].
    apply forallb_chomp; [reflexivity|].
    apply forallb_forall. intros c Hc.
    rewrite (proj1 (forallb_forall _ _) Hall c Hc). reflexivity.
  - apply Forall_forall. intros seg Hseg. specialize (H seg Hseg).
    rewrite is_valid_label_chomp in H. unfold valid_label in H.
    rewrite !andb_true_iff in H. destruct H as [[[[Hlo Hhi] _] _] _].
    apply Nat.leb_le in Hlo. apply Nat.leb_le in Hhi. lia.
Qed.

(** X4.  What [is_valid_hostname] accepts is never empty, has at most 255
    characters, is made of letters, digits, hyphens, dots and line feeds
    only (no underscore, no space), is not made of digits and dots alone,
    and is cut by its dots into pieces that each hold 1 to 63 characters
    once a final line feed is set aside: it has no empty label. *)
Theorem X4_valid_hostname_structure (s : str) :
  is_valid_hostname s = true ->
  1 <= length s <= 255
  /\ forallb (fun c => label_char true c || Ascii.eqb c "." || Ascii.eqb c newline) s
     = true
  /\ digits_and_dots s = false
  /\ Forall (fun seg => 1 <= length (chomp seg) <= 63) (split "." s).
Proof. exact (@valid_hostname_structure s). Qed.

(** X4 at "my-site.example.com". *)
Lemma witness_X4 :
  1 <= length ("my-site.example.com" : str) <= 255
  /\ forallb (fun c => label_char true c || Ascii.eqb c "." || Ascii.eqb c newline)
             "my-site.example.com" = true
  /\ digits_and_dots "my-site.example.com" = false
  /\ Forall (fun seg => 1 <= length (chomp seg) <= 63)
            (split "." "my-site.example.com").
Proof.
  apply (@X4_valid_hostname_structure "my-site.example.com"). reflexivity.
Defined.

(** ** More about [domain_name] *)

Section DomainNameMore.

Variable cfg : config.

Lemma startswith_www_dot (s : str) :
  startswith s "www." = true -> contains "." s = true.
Proof.
  destruct s as [|a [|b [|c [|d s]]]];
    cbn [startswith list_ascii_of_string]; intros H;
    rewrite ?andb_false_r in H; try discriminate H.
  apply andb_true_iff in H as [_ H]. apply andb_true_iff in H as [_ H].
  apply andb_true_iff in H as [_ H]. apply andb_true_iff in H as [Hd _].
  apply Ascii.eqb_eq in Hd. subst d.
  cbn [contains existsb]. rewrite Ascii.eqb_refl, !orb_true_r. reflexivity.
Qed.

Lemma lower_length (s : str) : length (lower s) = length s.
Proof. apply length_map. Qed.

Lemma label_char_lower_form (c : ascii) :
  label_char true c = true ->
  (islower (lower_char c) || isdigit (lower_char c)
   || Ascii.eqb (lower_char c) "-") = true.
Proof. each_char c; intros H; solve [reflexivity | discriminate H]. Qed.

End DomainNameMore.

(** A name that fails the hostname check is rejected in both branches. *)
Lemma invalid_name_rejected (cfg : config) (s : str) :
  is_valid_hostname (without_trailing_dot s) = false ->
  exists msg, domain_name cfg s = Raise (ValueError msg)
              /\ kind_of (ValueError msg) = InvalidInput.
Proof.
  intros H. destruct s as [|c s].
  - eexists. split; reflexivity.
  - rewrite domain_name_unfold. cbv zeta. rewrite H. cbn [negb orb].
    destruct (negb (contains "." (c :: s)));
      eexists; (split; [reflexivity | invalid_input]).
Qed.

(** X5.  A name made of digits and dots only is never accepted by
    [domain_name], whatever the configuration: neither a bare number as a
    subdomain nor a name that looks like an IPv4 address, with or without
    a trailing dot. *)
Theorem X5_numeric_name_rejected (cfg : config) (s : str) :
  digits_and_dots (without_trailing_dot s) = true ->
  exists msg, domain_name cfg s = Raise (ValueError msg)
              /\ kind_of (ValueError msg) = InvalidInput.
Proof.
  intros H. apply invalid_name_rejected, digits_and_dots_invalid, H.
Qed.

(** X5 at "192.168.1.1". *)
Lemma witness_X5 :
  exists msg, domain_name scenario_config "192.168.1.1" = Raise (ValueError msg)
              /\ kind_of (ValueError msg) = InvalidInput.
Proof.
  apply (@X5_numeric_name_rejected scenario_config "192.168.1.1").
  reflexivity.
Defined.

(** X6.  A valid hostname that starts with "www." is rejected with the
    message about the www label whatever the configuration: the test
    comes before the test of FQDN_REGISTRATION_CLOSED and before the
    blacklist. *)
Theorem X6_www_prefix_rejected (cfg : config) (s : str) :
  is_valid_hostname s = true ->
  startswith s "www." = true ->
  domain_name cfg s
  = Raise (ValueError "The domain name should not include the www. label").
Proof.
  intros Hvalid Hwww.
  destruct (is_valid_hostname_last _ Hvalid) as [Hne Hlast].
  pose proof (startswith_www_dot _ Hwww) as Hdot.
  destruct s as [|c s]; [congruence|].
  rewrite domain_name_unfold. cbv zeta.
  rewrite (without_trailing_dot_other _ Hlast), Hdot, Hvalid, Hwww.
  reflexivity.
Qed.

(** X6 at "www.foo.org", under closed registration. *)
Lemma witness_X6 :
  domain_name scenario_config "www.foo.org"
  = Raise (ValueError "The domain name should not include the www. label").
Proof.
  apply (@X6_www_prefix_rejected scenario_config "www.foo.org"); reflexivity.
Defined.

(** X7.  For a name that holds a dot and does not end with one, writing
    the name with a trailing dot changes nothing: [domain_name] gives the
    same result, or the same failure, on both spellings. *)
Theorem X7_trailing_dot_equivalence (cfg : config) (s : str) :
  contains "." s = true ->
  last_char s <> Some "."%char ->
  domain_name cfg (s ++ ".") = domain_name cfg s.
Proof.
  intros Hdot Hlast.
  destruct s as [|c s]; [discriminate|].
  change ((c :: s) ++ ".") with (c :: (s ++ ".")).
  rewrite !domain_name_unfold. cbv zeta.
  change (c :: (s ++ ".")) with ((c :: s) ++ ".").
  rewrite without_trailing_dot_app, (without_trailing_dot_other _ Hlast).
  rewrite contains_app, Hdot. reflexivity.
Qed.

(** X7 at "foo.org". *)
Lemma witness_X7 :
  domain_name open_config ("foo.org" ++ ".") = domain_name open_config "foo.org".
Proof.
  apply (@X7_trailing_dot_equivalence open_config "foo.org").
  - reflexivity.
  - discriminate.
Defined.

(** What an accepted name without a dot is known to satisfy. *)
Lemma accepted_subdomain (cfg : config) (s : str) (r : classification) :
  domain_name cfg s = Return r ->
  contains "." s = false ->
  label r = Some (lower s)
  /\ contains "." (lower s) = false
  /\ (MIN_SUBDOMAIN_LENGTH cfg <= len (lower s))%Z
  /\ is_valid_hostname (lower s) = true
  /\ 1 <= length (chomp (lower s)) <= 63
  /\ forallb (fun c => islower c || isdigit c || Ascii.eqb c "-")
             (chomp (lower s)) = true
  /\ mem s (DOMAIN_BLACKLIST cfg) = false.
Proof.
  intros H Hdot. destruct s as [|c s]; [discriminate|].
  rewrite domain_name_unfold in H. cbv zeta in H.
  rewrite (without_trailing_dot_no_dot _ Hdot), Hdot in H. cbn [negb] in H.
  destruct (is_valid_hostname (c :: s)) eqn:Hvalid; [|discriminate].
  cbn [negb] in H.
  destruct (len (c :: s) <? MIN_SUBDOMAIN_LENGTH cfg)%Z eqn:Hlen; [discriminate|].
  destruct (mem (c :: s) (DOMAIN_BLACKLIST cfg)) eqn:Hb; [discriminate|].
  injection H as <-. cbn [label].
  assert (Hlabel : valid_label true (chomp (c :: s)) = true).
  { unfold is_valid_hostname in Hvalid.
    destruct (255 <? length (c :: s)); [discriminate|].
    destruct (is_match false numeric_pattern (c :: s)); [discriminate|].
    rewrite (split_no_sep _ _ Hdot) in Hvalid. cbn [forallb] in Hvalid.
    rewrite andb_true_r, is_valid_label_chomp in Hvalid. exact Hvalid. }
  unfold valid_label in Hlabel. rewrite !andb_true_iff in Hlabel.
  destruct Hlabel as [[[[Hlo Hhi] Hall] _] _].
  apply Nat.leb_le in Hlo. apply Nat.leb_le in Hhi.
  split; [reflexivity|].
  split; [rewrite contains_dot_lower; exact Hdot|].
  split; [apply Z.ltb_ge in Hlen; unfold len in *; rewrite lower_length; exact Hlen|].
  split; [rewrite is_valid_hostname_lower; exact Hvalid|].
  rewrite chomp_lower, lower_length.
  split; [lia|]. split; [|reflexivity].
  unfold lower. rewrite forallb_map. apply forallb_forall. intros x Hx.
  apply label_char_lower_form.
  exact (proj1 (forallb_forall _ _) Hall x Hx).
Qed.

(** X8.  What [domain_name] returns for an ASCII name without a dot: the
    label is the lowercased name, has no dot, has at least
    MIN_SUBDOMAIN_LENGTH characters, and is itself accepted by
    [is_valid_hostname]; once a final line feed is set aside it holds 1 to
    63 characters, each a lowercase letter, a digit or a hyphen; and the
    name as submitted is not on the blacklist. *)
Theorem X8_accepted_subdomain (cfg : config) (s : str) (r : classification) :
  isascii s = true ->
  domain_name cfg s = Return r ->
  contains "." s = false ->
  label r = Some (lower s)
  /\ contains "." (lower s) = false
  /\ (MIN_SUBDOMAIN_LENGTH cfg <= len (lower s))%Z
  /\ is_valid_hostname (lower s) = true
  /\ 1 <= length (chomp (lower s)) <= 63
  /\ forallb (fun c => islower c || isdigit c || Ascii.eqb c "-")
             (chomp (lower s)) = true
  /\ mem s (DOMAIN_BLACKLIST cfg) = false.
Proof. intros _. exact (@accepted_subdomain cfg s r). Qed.

(** X8 at "MyApp". *)
Lemma witness_X8 :
  label {| label := Some ("myapp" : str); zone := "example.com" |}
  = Some (lower "MyApp")
  /\ contains "." (lower "MyApp") = false
  /\ (MIN_SUBDOMAIN_LENGTH scenario_config <= len (lower "MyApp"))%Z
  /\ is_valid_hostname (lower "MyApp") = true
  /\ 1 <= length (chomp (lower "MyApp")) <= 63
  /\ forallb (fun c => islower c || isdigit c || Ascii.eqb c "-")
             (chomp (lower "MyApp")) = true
  /\ mem "MyApp" (DOMAIN_BLACKLIST scenario_config) = false.
Proof.
  apply (@X8_accepted_subdomain scenario_config "MyApp"
           {| label := Some ("myapp" : str); zone := "example.com" |});
    reflexivity.
Defined.

(** What an accepted name with a dot is known to satisfy. *)
Lemma accepted_root_domain (cfg : config) (s : str) (r : classification) :
  domain_name cfg s = Return r ->
  contains "." s = true ->
  label r = None
  /\ zone r = lower (without_trailing_dot s)
  /\ truthy (FQDN_REGISTRATION_CLOSED cfg) = false
  /\ is_valid_hostname (zone r) = true
  /\ contains "." (zone r) = true
  /\ 2 <= length (split "." (zone r))
  /\ Forall (fun seg => 1 <= length (chomp seg) <= 63) (split "." (zone r))
  /\ startswith (without_trailing_dot s) "www." = false
  /\ mem (without_trailing_dot s) (DOMAIN_BLACKLIST cfg) = false.
Proof.
  intros H Hdot. destruct s as [|c s]; [discriminate|].
  rewrite domain_name_unfold in H. cbv zeta in H.
  rewrite Hdot in H. cbn [negb] in H.
  set (name := without_trailing_dot (c :: s)) in *.
  destruct (is_valid_hostname name) eqn:Hvalid; [|discriminate].
  destruct (contains "." name) eqn:Hdot'; [|discriminate].
  cbn [negb orb] in H.
  destruct (startswith name "www.") eqn:Hwww; [discriminate|].
  destruct (truthy (FQDN_REGISTRATION_CLOSED cfg)) eqn:Hc; [discriminate|].
  destruct (mem name (DOMAIN_BLACKLIST cfg)) eqn:Hb; [discriminate|].
  injection H as <-. cbn [label zone].
  assert (Hz : is_valid_hostname (lower name) = true)
    by (rewrite is_valid_hostname_lower; exact Hvalid).
  assert (Hd : contains "." (lower name) = true)
    by (rewrite contains_dot_lower; exact Hdot').
  repeat split; try assumption.
  - apply split_length. exact Hd.
  - apply valid_hostname_structure. exact Hz.
Qed.

(** X9.  What [domain_name] returns for an ASCII name with a dot: there
    is no label, registration of full domains is not closed, and the zone is the
    lowercased name without its trailing dot; the zone is itself accepted
    by [is_valid_hostname], holds a dot and is cut by its dots into at
    least two pieces, none empty; and the name as submitted, less its
    trailing dot, neither starts with "www." nor is on the blacklist. *)
Theorem X9_accepted_root_domain (cfg : config) (s : str) (r : classification) :
  isascii s = true ->
  domain_name cfg s = Return r ->
  contains "." s = true ->
  label r = None
  /\ zone r = lower (without_trailing_dot s)
  /\ truthy (FQDN_REGISTRATION_CLOSED cfg) = false
  /\ is_valid_hostname (zone r) = true
  /\ contains "." (zone r) = true
  /\ 2 <= length (split "." (zone r))
  /\ Forall (fun seg => 1 <= length (chomp seg) <= 63) (split "." (zone r))
  /\ startswith (without_trailing_dot s) "www." = false
  /\ mem (without_trailing_dot s) (DOMAIN_BLACKLIST cfg) = false.
Proof. intros _. exact (@accepted_root_domain cfg s r). Qed.

(** X9 at "Foo.Org." under open registration. *)
Lemma witness_X9 :
  label {| label := None; zone := "foo.org" |} = None
  /\ zone {| label := None; zone := "foo.org" |}
     = lower (without_trailing_dot "Foo.Org.")
  /\ truthy (FQDN_REGISTRATION_CLOSED open_config) = false
  /\ is_valid_hostname (zone {| label := None; zone := "foo.org" |}) = true
  /\ contains "." (zone {| label := None; zone := "foo.org" |}) = true
  /\ 2 <= length (split "." (zone {| label := None; zone := "foo.org" |}))
  /\ Forall (fun seg => 1 <= length (chomp seg) <= 63)
            (split "." (zone {| label := None; zone := "foo.org" |}))
  /\ startswith (without_trailing_dot "Foo.Org.") "www." = false
  /\ mem (without_trailing_dot "Foo.Org.") (DOMAIN_BLACKLIST open_config) = false.
Proof.
  apply (@X9_accepted_root_domain open_config "Foo.Org."
           {| label := None; zone := "foo.org" |}); reflexivity.
Defined.

(** X10.  Letter case does not change the classification beyond the two
    tests that compare the name as submitted: when [domain_name] accepts
    an ASCII name, it accepts the lowercase form of that name with the
    same result, provided the lowercase form is not on the blacklist and
    does not start with "www.". *)
Theorem X10_lowercase_same_result (cfg : config) (s : str) (r : classification) :
  isascii s = true ->
  domain_name cfg s = Return r ->
  mem (lower (without_trailing_dot s)) (DOMAIN_BLACKLIST cfg) = false ->
  startswith (lower (without_trailing_dot s)) "www." = false ->
  domain_name cfg (lower s) = Return r.
Proof.
  intros _ H Hb Hw. destruct s as [|c s]; [discriminate|].
  change (lower (c :: s)) with (lower_char c :: lower s).
  rewrite domain_name_unfold. rewrite domain_name_unfold in H.
  cbv zeta in *.
  change (lower_char c :: lower s) with (lower (c :: s)).
  rewrite without_trailing_dot_lower.
  set (name := without_trailing_dot (c :: s)) in *.
  rewrite contains_dot_lower, is_valid_hostname_lower, contains_dot_lower.
  rewrite Hb, Hw, lower_idem.
  unfold len in *. rewrite lower_length.
  destruct (contains "." (c :: s)); cbn [negb] in *.
  - destruct (is_valid_hostname name); [|discriminate].
    destruct (contains "." name); [|discriminate]. cbn [negb orb] in *.
    destruct (startswith name "www."); [discriminate|].
    destruct (truthy (FQDN_REGISTRATION_CLOSED cfg)); [discriminate|].
    destruct (mem name (DOMAIN_BLACKLIST cfg)); [discriminate|].
    exact H.
  - destruct (is_valid_hostname name); [|discriminate]. cbn [negb] in *.
    destruct (Z.of_nat (length name) <? MIN_SUBDOMAIN_LENGTH cfg)%Z;
      [discriminate|].
    destruct (mem name (DOMAIN_BLACKLIST cfg)); [discriminate|].
    exact H.
Qed.

(** X10 at "MyApp". *)
Lemma witness_X10 :
  domain_name scenario_config (lower "MyApp")
  = Return {| label := Some ("myapp" : str); zone := "example.com" |}.
Proof.
  apply (@X10_lowercase_same_result scenario_config "MyApp"); reflexivity.
Defined.

(** ** Onion addresses, IP addresses and record types *)

(** X11.  Whatever [is_onion_address] accepts has 22 or 23 characters and
    starts with 16 lowercase letters or digits; no longer text is ever
    accepted. *)
Theorem X11_onion_address_length (s : str) :
  is_onion_address s = true ->
  (length s = 22 \/ length s = 23)
  /\ forallb lower_alnum (firstn 16 s) = true.
Proof.
  intros H. apply is_onion_address_iff in H.
  destruct H as (p & c & E & Hp & Hall & _).
  assert (Hlen : length (chomp s) = 22).
  { rewrite E, length_app, Hp. reflexivity. }
  destruct (chomp_cases s) as [C|[C _]].
  - split.
    + right. rewrite C, length_app, Hlen. reflexivity.
    + rewrite C, E, <- app_assoc, firstn_app, Hp, Nat.sub_diag.
      rewrite firstn_all2 by lia. cbn [firstn]. rewrite app_nil_r. exact Hall.
  - split.
    + left. rewrite <- C. exact Hlen.
    + rewrite <- C, E, firstn_app, Hp, Nat.sub_diag.
      rewrite firstn_all2 by lia. cbn [firstn]. rewrite app_nil_r. exact Hall.
Qed.

(** X11 at "abcdefghij123456.onion". *)
Lemma witness_X11 :
  (length ("abcdefghij123456.onion" : str) = 22
   \/ length ("abcdefghij123456.onion" : str) = 23)
  /\ forallb lower_alnum (firstn 16 "abcdefghij123456.onion") = true.
Proof.
  apply (@X11_onion_address_length "abcdefghij123456.onion"). reflexivity.
Defined.

Section IpAddress.

Lemma existsb_false_In {A} (f : A -> bool) (l : list A) (x : A) :
  existsb f l = false -> In x l -> f x = false.
Proof.
  intros H Hin. destruct (f x) eqn:E; [|reflexivity].
  rewrite <- H. symmetry. apply existsb_exists. exists x. auto.
Qed.

(** An address outside a network lies below its first address or above
    its last. *)
Lemma contains_ip_false (net : ipaddress.network) (ip lo hi : N) :
  ipaddress.network_address net = lo ->
  ipaddress.broadcast_address net = hi ->
  ipaddress.contains_ip net ip = false ->
  (ip < lo \/ hi < ip)%N.
Proof.
  intros <- <- H. unfold ipaddress.contains_ip in H.
  apply andb_false_iff in H as [H|H]; apply N.leb_gt in H; auto.
Qed.

End IpAddress.

(** X12.  [ip_address] returns what [ipaddress.ip_address] parsed, and
    never an address that [is_private] holds: an IPv4 address it returns
    lies outside 10.0.0.0/8, 172.16.0.0/12, 192.168.0.0/16 and
    127.0.0.0/8, and an IPv6 address it returns is not ::1 and lies
    outside fc00::/7 and fe80::/10. *)
Theorem X12_ip_address_public (s : str) (ip : ipaddress.address) :
  ip_address s = Return ip ->
  ipaddress.ip_address s = Return ip
  /\ ipaddress.is_private ip = false
  /\ match ip with
     | ipaddress.IPv4Address n =>
         (n < 0x0A000000 \/ 0x0AFFFFFF < n)%N
         /\ (n < 0xAC100000 \/ 0xAC1FFFFF < n)%N
         /\ (n < 0xC0A80000 \/ 0xC0A8FFFF < n)%N
         /\ (n < 0x7F000000 \/ 0x7FFFFFFF < n)%N
     | ipaddress.IPv6Address n =>
         n <> 1%N
         /\ (n < 0xfc000000000000000000000000000000
             \/ 0xfdffffffffffffffffffffffffffffff < n)%N
         /\ (n < 0xfe800000000000000000000000000000
             \/ 0xfebfffffffffffffffffffffffffffff < n)%N
     end.
Proof.
  unfold ip_address. intros H.
  destruct (ipaddress.ip_address s) as [a|e]; [|discriminate].
  destruct (ipaddress.is_private a) eqn:Hp; [discriminate|].
  injection H as <-. split; [reflexivity|]. split; [exact Hp|].
  destruct a as [n|n]; cbn [ipaddress.is_private] in Hp.
  - repeat split.
    + apply (@contains_ip_false (ipaddress.IPv4Network "10.0.0.0" 8));
        [reflexivity | reflexivity |].
      apply (existsb_false_In _ _ _ Hp). cbn; tauto.
    + apply (@contains_ip_false (ipaddress.IPv4Network "172.16.0.0" 12));
        [reflexivity | reflexivity |].
      apply (existsb_false_In _ _ _ Hp). cbn; tauto.
    + apply (@contains_ip_false (ipaddress.IPv4Network "192.168.0.0" 16));
        [reflexivity | reflexivity |].
      apply (existsb_false_In _ _ _ Hp). cbn; tauto.
    + apply (@contains_ip_false (ipaddress.IPv4Network "127.0.0.0" 8));
        [reflexivity | reflexivity |].
      apply (existsb_false_In _ _ _ Hp). cbn; tauto.
  - repeat split.
    + intros ->. vm_compute in Hp. discriminate.
    + apply (@contains_ip_false (ipaddress.IPv6Network "fc00::" 7));
        [reflexivity | reflexivity |].
      apply (existsb_false_In _ _ _ Hp). cbn; tauto.
    + apply (@contains_ip_false (ipaddress.IPv6Network "fe80::" 10));
        [reflexivity | reflexivity |].
      apply (existsb_false_In _ _ _ Hp). cbn; tauto.
Qed.

(** X12 at "8.8.8.8". *)
Lemma witness_X12 :
  ipaddress.ip_address "8.8.8.8" = Return (ipaddress.IPv4Address 0x08080808)
  /\ ipaddress.is_private (ipaddress.IPv4Address 0x08080808) = false
  /\ (0x08080808 < 0x0A000000 \/ 0x0AFFFFFF < 0x08080808)%N
     /\ (0x08080808 < 0xAC100000 \/ 0xAC1FFFFF < 0x08080808)%N
     /\ (0x08080808 < 0xC0A80000 \/ 0xC0A8FFFF < 0x08080808)%N
     /\ (0x08080808 < 0x7F000000 \/ 0x7FFFFFFF < 0x08080808)%N.
Proof.
  apply (@X12_ip_address_public "8.8.8.8" (ipaddress.IPv4Address 0x08080808)).
  reflexivity.
Defined.

Section StripMore.

Lemma lstrip_app_space (l s : str) :
  forallb isspace l = true -> lstrip (l ++ s) = lstrip s.
Proof.
  induction l as [|c l IH]; [reflexivity|].
  cbn [forallb app lstrip]. intros H. apply andb_true_iff in H as [Hc Hl].
  rewrite Hc. exact (IH Hl).
Qed.

Lemma lstrip_all_space (r : str) : forallb isspace r = true -> lstrip r = [].
Proof.
  intros H. rewrite <- (app_nil_r r). rewrite (@lstrip_app_space r [] H).
  reflexivity.
Qed.

Lemma rstrip_app_space (s r : str) :
  forallb isspace r = true -> rstrip (s ++ r) = rstrip s.
Proof.
  intros H. unfold rstrip. rewrite rev_app_distr, lstrip_app_space;
    [reflexivity | rewrite forallb_rev; exact H].
Qed.

Lemma strip_app_space (l s r : str) :
  forallb isspace l = true -> forallb isspace r = true ->
  strip (l ++ s ++ r) = strip s.
Proof.
  intros Hl Hr. unfold strip. rewrite (@lstrip_app_space l (s ++ r) Hl).
  induction s as [|c s IH].
  - cbn [app]. rewrite (@lstrip_all_space r Hr). reflexivity.
  - cbn [app lstrip]. destruct (isspace c); [exact IH|].
    change (c :: s ++ r) with ((c :: s) ++ r). apply rstrip_app_space, Hr.
Qed.

Lemma lstrip_fixed (t : str) : no_leading_space t -> lstrip t = t.
Proof.
  destruct t as [|c t]; [reflexivity|]. cbn [no_leading_space lstrip].
  intros ->. reflexivity.
Qed.

(** A change of letter case commutes with [strip]. *)
Lemma strip_map (f : ascii -> ascii) (s : str) :
  (forall c, isspace (f c) = isspace c) ->
  strip (map f s) = map f (strip s).
Proof.
  intros Hf.
  assert (L : forall t, lstrip (map f t) = map f (lstrip t)).
  { induction t as [|c t IH]; [reflexivity|].
    cbn [map lstrip]. rewrite Hf. destruct (isspace c); [exact IH | reflexivity]. }
  unfold strip, rstrip. rewrite L, <- map_rev, L, map_rev. reflexivity.
Qed.

Lemma isspace_lower (c : ascii) : isspace (lower_char c) = isspace c.
Proof. each_char c; reflexivity. Qed.
Lemma upper_lower_char (c : ascii) : upper_char (lower_char c) = upper_char c.
Proof. each_char c; reflexivity. Qed.

Lemma flat_map_map {A B C} (f : B -> list C) (g : A -> B) (l : list A) :
  flat_map f (map g l) = flat_map (fun x => f (g x)) l.
Proof.
  induction l as [|x l IH]; [reflexivity|]. cbn [map flat_map].
  rewrite IH. reflexivity.
Qed.

Lemma normalize_lower (s : str) : upper (strip (lower s)) = upper (strip s).
Proof.
  unfold lower. rewrite (@strip_map lower_char _ isspace_lower).
  unfold upper. rewrite flat_map_map. apply flat_map_ext, upper_lower_char.
Qed.

(** The capital form of a character is not empty, and holds a space of
    the alphabet only when the character is that space. *)
Lemma upper_char_not_nil (c : ascii) : upper_char c <> [].
Proof. each_char c; discriminate. Qed.

Lemma upper_char_space (c d : ascii) :
  In (ord d) (upper_char c) -> isspace d = isspace c.
Proof.
  intros H.
  assert (E : exists n, In n (upper_char c) /\ d = chr n /\ ord (chr n) = n).
  { exists (ord d). unfold chr, ord. rewrite ascii_N_embedding. auto. }
  clear H. destruct E as (n & H & -> & E). revert H E.
  each_char c; cbn; intros H E;
    repeat (destruct H as [<-|H]; [first [discriminate E | reflexivity]|]);
    destruct H.
Qed.

(** Text that is upper-cased from a text with no space in front has no
    space in front; [g] is [upper_char] or its mirror image. *)
Lemma flat_map_no_leading_space (g : ascii -> text) (x t : str) :
  (forall c, g c <> []) ->
  (forall c d, In (ord d) (g c) -> isspace d = isspace c) ->
  flat_map g x = wide t ->
  no_leading_space x -> no_leading_space t.
Proof.
  intros Hne Hsp E Hx. destruct t as [|d t]; [exact I|].
  destruct x as [|c x]; [discriminate E|].
  cbn [flat_map wide map] in E. cbn [no_leading_space] in *.
  rewrite <- Hx. apply Hsp.
  destruct (g c) as [|n rest] eqn:G; [elim (Hne c G)|].
  injection E as -> _. left. reflexivity.
Qed.

Lemma rev_flat_map {A B} (f : A -> list B) (l : list A) :
  rev (flat_map f l) = flat_map (fun x => rev (f x)) (rev l).
Proof.
  induction l as [|x l IH]; [reflexivity|].
  cbn [flat_map rev]. rewrite rev_app_distr, IH, flat_map_app.
  cbn [flat_map]. rewrite app_nil_r. reflexivity.
Qed.

(** A text of the alphabet that is the normal form of some input has no
    space at either end, and is its own normal form. *)
Lemma normal_form_stripped (s t : str) :
  upper (strip s) = wide t -> strip t = t.
Proof.
  intros E.
  destruct (strip_spec s) as (_ & _ & _ & _ & _ & Hhead & Hlast).
  assert (H1 : no_leading_space t).
  { apply (@flat_map_no_leading_space upper_char (strip s) t);
      auto using upper_char_not_nil, upper_char_space. }
  assert (H2 : no_leading_space (rev t)).
  { apply (@flat_map_no_leading_space (fun c => rev (upper_char c))
                                      (rev (strip s)) (rev t)).
    - intros c G. apply (@upper_char_not_nil c).
      rewrite <- (rev_involutive (upper_char c)), G. reflexivity.
    - intros c d H. apply (@upper_char_space c d). apply in_rev. exact H.
    - rewrite <- rev_flat_map. fold (upper (strip s)). rewrite E.
      unfold wide. rewrite map_rev. reflexivity.
    - exact Hlast. }
  unfold strip. rewrite (@lstrip_fixed _ H1).
  unfold rstrip. rewrite (@lstrip_fixed _ H2). apply rev_involutive.
Qed.

Lemma normal_form_fixed (s t : str) :
  upper (strip s) = wide t -> upper (strip t) = wide t.
Proof.
  intros E. rewrite (@normal_form_stripped s t E). unfold upper, wide.
  assert (F : forall d, In d t -> upper_char d = [ord d]).
  { intros d Hd. apply (@upper_fixed (strip s) d). rewrite E.
    apply in_map. exact Hd. }
  clear - F. induction t as [|d t IH]; [reflexivity|].
  cbn [flat_map map]. rewrite (F d (or_introl eq_refl)). cbn [app].
  f_equal. apply IH. intros d' Hd'. apply F. right. exact Hd'.
Qed.

End StripMore.

(** X13.  Whitespace around the record type does not matter: with any run
    of whitespace put before the input and any run put after it,
    [allowed_dns_record_type] gives the same result, or the same failure
    and message. *)
Theorem X13_record_type_ignores_whitespace (cfg : config) (l s r : str) :
  forallb isspace l = true ->
  forallb isspace r = true ->
  allowed_dns_record_type cfg (l ++ s ++ r) = allowed_dns_record_type cfg s.
Proof.
  intros Hl Hr. unfold allowed_dns_record_type.
  rewrite (@strip_app_space l s r Hl Hr). reflexivity.
Qed.

(** X13 at "a" after a tab and a no-break space and before a space and a
    line feed. *)
Lemma witness_X13 :
  allowed_dns_record_type scenario_config
    (["009"%char; "160"%char] ++ "a" ++ [" "%char; newline])
  = allowed_dns_record_type scenario_config "a".
Proof.
  apply (@X13_record_type_ignores_whitespace scenario_config
           ["009"%char; "160"%char] "a" [" "%char; newline]);
    reflexivity.
Defined.

(** X14.  Nor does, on ASCII text, the letter case of the record type: on
    the lowercase form of an input, on its uppercase form and on every
    ASCII text that has the same lowercase form,
    [allowed_dns_record_type] gives what it gives on the input. *)
Theorem X14_record_type_ignores_case (cfg : config) (s : str) :
  isascii s = true ->
  allowed_dns_record_type cfg (lower s) = allowed_dns_record_type cfg s
  /\ (forall u, upper s = wide u ->
                allowed_dns_record_type cfg u = allowed_dns_record_type cfg s)
  /\ (forall t, isascii t = true -> lower t = lower s ->
                allowed_dns_record_type cfg t = allowed_dns_record_type cfg s).
Proof.
  intros Hs.
  assert (L : forall t, lower t = lower s ->
                        allowed_dns_record_type cfg t
                        = allowed_dns_record_type cfg s).
  { intros t E. unfold allowed_dns_record_type.
    rewrite <- (normalize_lower t), E, normalize_lower. reflexivity. }
  split; [apply L, lower_idem|]. split.
  - intros u E. apply L. exact (lower_upper_isascii s u Hs E).
  - intros t _ E. apply L. exact E.
Qed.

(** X14 at " cName ", with " CNAME " and " Cname ". *)
Lemma witness_X14 :
  allowed_dns_record_type scenario_config (lower " cName ")
  = allowed_dns_record_type scenario_config " cName "
  /\ allowed_dns_record_type scenario_config " CNAME "
     = allowed_dns_record_type scenario_config " cName "
  /\ allowed_dns_record_type scenario_config " Cname "
     = allowed_dns_record_type scenario_config " cName ".
Proof.
  destruct (@X14_record_type_ignores_case scenario_config " cName " eq_refl)
    as (H1 & H2 & H3).
  split; [exact H1|]. split; [apply H2 | apply H3]; reflexivity.
Defined.

(** X15.  A record type that [allowed_dns_record_type] returns is one of
    ALLOWED_DNS_RECORD_TYPES and has no whitespace at either end; given
    as a text of the alphabet and validated again, it is returned
    unchanged. *)
Theorem X15_record_type_normal_form (cfg : config) (s t : str) :
  allowed_dns_record_type cfg s = Return (wide t) ->
  In (wide t) (ALLOWED_DNS_RECORD_TYPES cfg)
  /\ strip t = t
  /\ allowed_dns_record_type cfg t = Return (wide t).
Proof.
  unfold allowed_dns_record_type. intros H.
  destruct (text_mem (upper (strip s)) (ALLOWED_DNS_RECORD_TYPES cfg)) eqn:E;
    [|discriminate].
  cbn [negb] in H. injection H as H.
  pose proof (@normal_form_fixed s t H) as F.
  rewrite H in E.
  split; [apply text_mem_In; exact E|].
  split; [exact (@normal_form_stripped s t H)|].
  rewrite F, E. reflexivity.
Qed.

(** X15 at " cname ", which gives "CNAME". *)
Lemma witness_X15 :
  In (wide "CNAME") (ALLOWED_DNS_RECORD_TYPES scenario_config)
  /\ strip "CNAME" = "CNAME"
  /\ allowed_dns_record_type scenario_config "CNAME" = Return (wide "CNAME").
Proof.
  apply (@X15_record_type_normal_form scenario_config " cname " "CNAME").
  reflexivity.
Defined.


(** ** Names that are rejected, names that compose *)

(** X17.  A name that holds an underscore, a space or any other character
    that is not a letter, a digit, a hyphen, a dot or a line feed is
    rejected by [domain_name] whatever the configuration. *)
Theorem X17_foreign_character_rejected (cfg : config) (s : str) (c : ascii) :
  In c (without_trailing_dot s) ->
  (label_char true c || Ascii.eqb c "." || Ascii.eqb c newline) = false ->
  exists msg, domain_name cfg s = Raise (ValueError msg)
              /\ kind_of (ValueError msg) = InvalidInput.
Proof.
  intros Hin Hc. apply invalid_name_rejected.
  destruct (is_valid_hostname (without_trailing_dot s)) eqn:Hv; [|reflexivity].
  destruct (valid_hostname_structure _ Hv) as (_ & Hall & _).
  rewrite forallb_forall in Hall. rewrite (Hall c Hin) in Hc. discriminate.
Qed.

(** X17 at "my_app", which [label] accepts. *)
Lemma witness_X17 :
  (exists msg, domain_name scenario_config "my_app" = Raise (ValueError msg)
               /\ kind_of (ValueError msg) = InvalidInput)
  /\ label_ "my_app" = Return ("my_app" : str).
Proof.
  split; [|reflexivity].
  apply (@X17_foreign_character_rejected scenario_config "my_app" "_").
  - cbn. tauto.
  - reflexivity.
Defined.

Section Compose.

Lemma chomp_app (x z : str) : z <> [] -> chomp (x ++ z) = x ++ chomp z.
Proof.
  intros Hz. destruct (chomp_cases z) as [C|[C Hl]].
  - rewrite C at 1. rewrite app_assoc, chomp_app_newline. reflexivity.
  - rewrite C. destruct (last_char z) as [c|] eqn:E.
    + pose proof (last_char_Some _ E) as Ez.
      rewrite Ez, app_assoc. apply chomp_app_other.
      intros ->. apply Hl. reflexivity.
    + apply last_char_None in E. contradiction.
Qed.

(** A valid hostname has something other than digits and dots before its
    final line feed. *)
Lemma valid_hostname_not_numeric (z : str) :
  is_valid_hostname z = true -> digits_and_dots (chomp z) = false.
Proof.
  intros H. pose proof H as H'. unfold is_valid_hostname in H.
  rewrite numeric_pattern_match in H.
  destruct (255 <? length z); [discriminate|].
  destruct (digits_and_dots (chomp z)) eqn:Hd; [|reflexivity].
  rewrite andb_true_r in H.
  destruct (chomp z) as [|c t] eqn:Ec; [|discriminate H].
  exfalso. destruct (chomp_cases z) as [C|[C _]].
  - rewrite Ec in C. subst z. discriminate H'.
  - rewrite Ec in C. subst z. discriminate H'.
Qed.

End Compose.

(** X18.  The label and the zone that [domain_name] returns for an ASCII
    subdomain compose into a hostname: when SUBDOMAIN_HOST is ASCII and
    itself a valid hostname, and label, dot and zone together have at most
    255 characters, the name "label.zone" is accepted by
    [is_valid_hostname]. *)
Theorem X18_label_dot_zone_is_hostname
        (cfg : config) (s l : str) (r : classification) :
  isascii s = true ->
  isascii (SUBDOMAIN_HOST cfg) = true ->
  domain_name cfg s = Return r ->
  label r = Some l ->
  is_valid_hostname (SUBDOMAIN_HOST cfg) = true ->
  length l + 1 + length (zone r) <= 255 ->
  is_valid_hostname (l ++ "." ++ zone r) = true.
Proof.
  intros _ _ H Hl Hhost Hlen.
  destruct (contains "." s) eqn:Hdot.
  { destruct (accepted_root_domain _ _ H Hdot) as [Hnone _].
    congruence. }
  destruct (accepted_subdomain _ _ H Hdot) as (Hsome & Hd & _ & Hv & _).
  assert (l = lower s) by congruence. subst l.
  assert (Hz : zone r = lower (SUBDOMAIN_HOST cfg)).
  { destruct s as [|c s]; [discriminate|].
    rewrite domain_name_unfold in H. cbv zeta in H.
    rewrite Hdot in H. cbn [negb] in H.
    repeat match type of H with
           | (if ?b then _ else _) = _ => destruct b; try discriminate H
           end.
    injection H as <-. reflexivity. }
  rewrite Hz in *.
  assert (Hzv : is_valid_hostname (lower (SUBDOMAIN_HOST cfg)) = true)
    by (rewrite is_valid_hostname_lower; exact Hhost).
  set (z := lower (SUBDOMAIN_HOST cfg)) in *.
  destruct (is_valid_hostname_last _ Hzv) as [Hzne _].
  change (lower s ++ "." ++ z) with (lower s ++ "."%char :: z).
  unfold is_valid_hostname. rewrite numeric_pattern_match.
  replace (255 <? length (lower s ++ "."%char :: z)) with false.
  2:{ symmetry. apply Nat.ltb_ge. rewrite length_app. simpl. lia. }
  change (lower s ++ "."%char :: z) with (lower s ++ ("."%char :: z)) at 1 2.
  rewrite (@chomp_app (lower s) ("."%char :: z)) by discriminate.
  change ("."%char :: z) with (["."%char] ++ z) at 1 2.
  rewrite (@chomp_app ["."%char] z Hzne).
  unfold digits_and_dots. rewrite !forallb_app.
  fold (digits_and_dots (chomp z)).
  rewrite (valid_hostname_not_numeric _ Hzv), !andb_false_r.
  rewrite split_app_sep, forallb_app.
  unfold is_valid_hostname in Hv, Hzv.
  destruct (255 <? length (lower s)); [discriminate|].
  destruct (is_match false numeric_pattern (lower s)); [discriminate|].
  destruct (255 <? length z); [discriminate|].
  destruct (is_match false numeric_pattern z); [discriminate|].
  rewrite Hv, Hzv. reflexivity.
Qed.

(** X18 at "MyApp" under the host "example.com". *)
Lemma witness_X18 :
  is_valid_hostname ("myapp" ++ "." ++ "example.com") = true.
Proof.
  apply (@X18_label_dot_zone_is_hostname scenario_config "MyApp" "myapp"
           {| label := Some ("myapp" : str); zone := "example.com" |}).
  - reflexivity.
  - reflexivity.
  - reflexivity.
  - reflexivity.
  - reflexivity.
  - simpl. lia.
Defined.
